(** * NEPSEAutoBuyer: the quote-watching order loop of [main.py]

    A shallow embedding of [NEPSEAutoBuyer] ([main.py]) and the properties of
    its per-symbol loop ([detect]), of the market gate ([wait_market_open]),
    of the token pool ([generate_duplicate_order_id], [setup]) and of the
    orchestrator ([runner]).

    Conventions.
    - A Python [float] is an IEEE-754 binary64 number with round-to-nearest-even
      arithmetic, which is exactly Rocq's primitive [float].
    - A network reply is an input of the model: every coroutine takes the
      replies it will receive as a list and consumes one per request.  A
      coroutine that needs a reply the list does not hold is [Waiting]: it is
      suspended on that request.  A reply is given as the HTTP status and the
      values the program reads from the decoded body; failures of the
      transport itself and cancellation of a task are outside the model.
    - Every request sent and every log record written goes into a trace of
      [event]s, in the order of the program. *)

From Stdlib Require Import ZArith List String Ascii Bool Lia Floats Relations.
Import ListNotations.
Open Scope string_scope.
Open Scope list_scope.
Open Scope Z_scope.
Set Warnings "-inexact-float".

(** Exceptions.  [Exception msg] is [raise Exception(msg)] of the program; the
    others are the interpreter's own. *)
Inductive exn : Type :=
| Exception (msg : string)
| AttributeError
| ValueError
| OverflowError
| ZeroDivisionError
| IndexError
| KeyError.

(** The value of an expression that may raise. *)
Inductive result (A : Type) : Type :=
| Ok (a : A)
| Raise (e : exn).
Arguments Ok {A} a.
Arguments Raise {A} e.

Definition bind {A B : Type} (r : result A) (k : A -> result B) : result B :=
  match r with
  | Ok a => k a
  | Raise e => Raise e
  end.

Definition of_option {A : Type} (e : exn) (o : option A) : result A :=
  match o with
  | Some a => Ok a
  | None => Raise e
  end.

(** ** Python numbers *)

Module PyFloat.

(** [int(x)]: truncation toward zero; raises [ValueError] on NaN and
    [OverflowError] on an infinity. *)
Definition int_of_float (x : float) : result Z :=
  match Prim2SF x with
  | S754_zero _ => Ok 0
  | S754_finite s m e =>
      let a := Z.shiftl (Zpos m) e in
      Ok (if s then - a else a)
  | S754_infinity _ => Raise OverflowError
  | S754_nan => Raise ValueError
  end.

Definition SF_of_Z (n : Z) : spec_float :=
  match n with
  | Z0 => S754_zero false
  | Zpos p => S754_finite false p 0
  | Zneg p => S754_finite true p 0
  end.

(** [a / b] on two Python ints: the correctly rounded quotient; raises
    [ZeroDivisionError], and [OverflowError] when the quotient is too large
    for a float. *)
Definition int_truediv (a b : Z) : result float :=
  if b =? 0 then Raise ZeroDivisionError
  else match SFdiv prec emax (SF_of_Z a) (SF_of_Z b) with
       | S754_infinity _ => Raise OverflowError
       | q => Ok (SF2Prim q)
       end.

(** [x / y] on two floats: Python raises [ZeroDivisionError] on a zero
    divisor. *)
Definition float_div (x y : float) : result float :=
  if PrimFloat.is_zero y then Raise ZeroDivisionError else Ok (x / y)%float.

(** [n] is [x] with its fraction cut off: [x] is a finite float, of sign
    [s], mantissa [m] and exponent [e], worth [m * 2^e] in size, and [n] has
    the sign of [x] and the size of the integer part of that: it is within
    less than one of [x], on the side of zero. *)
Definition truncation_of (x : float) (n : Z) : Prop :=
  match Prim2SF x with
  | S754_zero _ => n = 0
  | S754_finite s m e =>
      (if s then n <= 0 else 0 <= n) /\
      if 0 <=? e then Z.abs n = Zpos m * 2 ^ e
      else Z.abs n * 2 ^ (- e) <= Zpos m < (Z.abs n + 1) * 2 ^ (- e)
  | S754_infinity _ | S754_nan => False
  end.

(** [x > y] and [x <= y] as Python evaluates them on floats. *)
Definition gt (x y : float) : bool := (y <? x)%float.
Definition le (x y : float) : bool := (x <=? y)%float.

(** [int(x * 10) / 10] and [int(x * 100) / 100], the program's truncation
    to one and to two decimals. *)
Definition trunc1 (x : float) : result float :=
  bind (int_of_float (x * 10)%float) (fun n => int_truediv n 10).
Definition trunc2 (x : float) : result float :=
  bind (int_of_float (x * 100)%float) (fun n => int_truediv n 100).

End PyFloat.

(** ** Python values carried by the broker's JSON

    The fields the program reads are JSON scalars.  JSON numbers are carried
    as floats (an integer literal is the float of the same value; Python
    compares, tests and converts both alike in every use below). *)

Inductive pyval : Type :=
| PyNone
| PyNum (x : float)
| PyStr (s : string).

(** Truth value of a Python object: [None], zero and the empty string are
    false. *)
Definition truthy (v : pyval) : bool :=
  match v with
  | PyNone => false
  | PyNum x => negb (PrimFloat.is_zero x)
  | PyStr s => negb (String.eqb s "")
  end.

(** [v == s] for a string literal [s]. *)
Definition eq_str (v : pyval) (s : string) : bool :=
  match v with
  | PyStr t => String.eqb t s
  | _ => false
  end.

(** [s.replace(',', '')] *)
Fixpoint remove_commas (s : string) : string :=
  match s with
  | EmptyString => EmptyString
  | String c s' =>
      if Ascii.eqb c "," then remove_commas s' else String c (remove_commas s')
  end.

(** Plain decimal text ([-12.5], [7], [.25]) read as Python's [float] reads
    it: the correctly rounded value of the decimal.  It serves as the
    text-to-float conversion of the examples, whose texts are all of this
    kind (on any other text it answers [None], also where Python would read a
    number: an exponent, [inf], surrounding blanks).  The properties below
    hold for any conversion. *)
Module Decimal.

Definition to_option {A : Type} (r : result A) : option A :=
  match r with
  | Ok a => Some a
  | Raise _ => None
  end.

Definition digit (c : ascii) : option Z :=
  let n := Z.of_N (N_of_ascii c) in
  if (48 <=? n) && (n <=? 57) then Some (n - 48) else None.

(** [digits s m n]: reads the digits at the head of [s] onto the mantissa
    [m], adds their number to [n], and returns the rest of the text too. *)
Fixpoint digits (s : string) (m : Z) (n : nat) : Z * nat * string :=
  match s with
  | EmptyString => (m, n, s)
  | String c s' =>
      match digit c with
      | Some d => digits s' (10 * m + d) (S n)
      | None => (m, n, s)
      end
  end.

Definition unsigned (s : string) : option float :=
  let '(m, n, rest) := digits s 0 0%nat in
  match rest with
  | EmptyString =>
      if Nat.eqb n 0 then None else to_option (PyFloat.int_truediv m 1)
  | String "." frac =>
      let '(m', n', rest') := digits frac m 0%nat in
      match rest' with
      | EmptyString =>
          if Nat.eqb (n + n') 0 then None
          else to_option (PyFloat.int_truediv m' (10 ^ Z.of_nat n'))
      | _ => None
      end
  | _ => None
  end.

Definition float_of_str (s : string) : option float :=
  match s with
  | String "-" s' => option_map PrimFloat.opp (unsigned s')
  | String "+" s' => unsigned s'
  | _ => unsigned s
  end.

End Decimal.

(** ** Per-symbol state: one entry of [self.stock_states] *)

Record stock_state : Type := mk_state {
  applied_qnty : Z;
  opening_price : pyval;
  percent : float;
  ltp : pyval;
  ltp_p : float;
  circuit_price : float;
  previous_day_closing : float;
  high_price : float;
  initial_per : float;
  circuit_per : float;
  remain_per : float;
  duplicate_order_id : option string;
  duplicate_order_ids : list string;
  order_id_index : nat
}.

(** The entry [__init__] builds for a configured quantity.  The integer
    literals [0] and [-2] are the floats of the same value. *)
Definition init_state (quantity : Z) : stock_state :=
  {| applied_qnty := quantity;
     opening_price := PyNum 0;
     percent := 0;
     ltp := PyNum 0;
     ltp_p := 0;
     circuit_price := 0;
     previous_day_closing := 0;
     high_price := 0;
     initial_per := (-2)%float;
     circuit_per := 0;
     remain_per := 0;
     duplicate_order_id := None;
     duplicate_order_ids := [];
     order_id_index := 0 |}.

(** [state[key] = v], one definition per key the program assigns. *)
Definition set_opening_price (v : pyval) (st : stock_state) : stock_state :=
  mk_state (applied_qnty st) v (percent st) (ltp st) (ltp_p st)
    (circuit_price st) (previous_day_closing st) (high_price st)
    (initial_per st) (circuit_per st) (remain_per st) (duplicate_order_id st)
    (duplicate_order_ids st) (order_id_index st).

Definition set_percent (x : float) (st : stock_state) : stock_state :=
  mk_state (applied_qnty st) (opening_price st) x (ltp st) (ltp_p st)
    (circuit_price st) (previous_day_closing st) (high_price st)
    (initial_per st) (circuit_per st) (remain_per st) (duplicate_order_id st)
    (duplicate_order_ids st) (order_id_index st).

Definition set_ltp (v : pyval) (st : stock_state) : stock_state :=
  mk_state (applied_qnty st) (opening_price st) (percent st) v (ltp_p st)
    (circuit_price st) (previous_day_closing st) (high_price st)
    (initial_per st) (circuit_per st) (remain_per st) (duplicate_order_id st)
    (duplicate_order_ids st) (order_id_index st).

Definition set_ltp_p (x : float) (st : stock_state) : stock_state :=
  mk_state (applied_qnty st) (opening_price st) (percent st) (ltp st) x
    (circuit_price st) (previous_day_closing st) (high_price st)
    (initial_per st) (circuit_per st) (remain_per st) (duplicate_order_id st)
    (duplicate_order_ids st) (order_id_index st).

Definition set_circuit_price (x : float) (st : stock_state) : stock_state :=
  mk_state (applied_qnty st) (opening_price st) (percent st) (ltp st) (ltp_p st)
    x (previous_day_closing st) (high_price st)
    (initial_per st) (circuit_per st) (remain_per st) (duplicate_order_id st)
    (duplicate_order_ids st) (order_id_index st).

Definition set_previous_day_closing (x : float) (st : stock_state) : stock_state :=
  mk_state (applied_qnty st) (opening_price st) (percent st) (ltp st) (ltp_p st)
    (circuit_price st) x (high_price st)
    (initial_per st) (circuit_per st) (remain_per st) (duplicate_order_id st)
    (duplicate_order_ids st) (order_id_index st).

Definition set_high_price (x : float) (st : stock_state) : stock_state :=
  mk_state (applied_qnty st) (opening_price st) (percent st) (ltp st) (ltp_p st)
    (circuit_price st) (previous_day_closing st) x
    (initial_per st) (circuit_per st) (remain_per st) (duplicate_order_id st)
    (duplicate_order_ids st) (order_id_index st).

Definition set_initial_per (x : float) (st : stock_state) : stock_state :=
  mk_state (applied_qnty st) (opening_price st) (percent st) (ltp st) (ltp_p st)
    (circuit_price st) (previous_day_closing st) (high_price st)
    x (circuit_per st) (remain_per st) (duplicate_order_id st)
    (duplicate_order_ids st) (order_id_index st).

Definition set_circuit_per (x : float) (st : stock_state) : stock_state :=
  mk_state (applied_qnty st) (opening_price st) (percent st) (ltp st) (ltp_p st)
    (circuit_price st) (previous_day_closing st) (high_price st)
    (initial_per st) x (remain_per st) (duplicate_order_id st)
    (duplicate_order_ids st) (order_id_index st).

Definition set_remain_per (x : float) (st : stock_state) : stock_state :=
  mk_state (applied_qnty st) (opening_price st) (percent st) (ltp st) (ltp_p st)
    (circuit_price st) (previous_day_closing st) (high_price st)
    (initial_per st) (circuit_per st) x (duplicate_order_id st)
    (duplicate_order_ids st) (order_id_index st).

Definition set_duplicate_order_id (t : option string) (st : stock_state) : stock_state :=
  mk_state (applied_qnty st) (opening_price st) (percent st) (ltp st) (ltp_p st)
    (circuit_price st) (previous_day_closing st) (high_price st)
    (initial_per st) (circuit_per st) (remain_per st) t
    (duplicate_order_ids st) (order_id_index st).

Definition set_duplicate_order_ids (l : list string) (st : stock_state) : stock_state :=
  mk_state (applied_qnty st) (opening_price st) (percent st) (ltp st) (ltp_p st)
    (circuit_price st) (previous_day_closing st) (high_price st)
    (initial_per st) (circuit_per st) (remain_per st) (duplicate_order_id st)
    l (order_id_index st).

Definition set_order_id_index (n : nat) (st : stock_state) : stock_state :=
  mk_state (applied_qnty st) (opening_price st) (percent st) (ltp st) (ltp_p st)
    (circuit_price st) (previous_day_closing st) (high_price st)
    (initial_per st) (circuit_per st) (remain_per st) (duplicate_order_id st)
    (duplicate_order_ids st) n.

(** ** Requests, log records and replies *)

(** The fields of the [submitOrder] payload that vary. *)
Record order : Type := mk_order {
  txtSecurity : string;
  spnQuantity : Z;
  spnPrice : float;
  marketPrice : float;
  duplicateOrderId : option string
}.

Inductive log_record : Type :=
| LogWatchError                                   (* "Error parsing watch response: ..." *)
| LogOrderTime                                    (* "Time to place order: ..." *)
| LogOrderPlaced (symbol : string) (quantity : Z) (price : float)
| LogException (e : exn)                          (* [log.info("%s", e)] in [detect] *)
| LogStatusError                                  (* "Error during checking market status ..." *)
| LogLogin                                        (* "Strated the training process" *)
| LogDetails.                                     (* "Wait until the process is completed..." *)

Inductive event : Type :=
| EvCookies                       (* GET  /atsweb/login *)
| EvLogin                         (* POST /atsweb/login *)
| EvDetails                       (* GET  /atsweb/order, getUserDetails *)
| EvStatus                        (* GET  /atsweb/home, marketStatus *)
| EvWatch (symbol : string)       (* GET  /atsweb/watch, getWatchForSecurity *)
| EvOrder (o : order)             (* POST /atsweb/order, submitOrder *)
| EvLog (r : log_record)
| EvClose.                        (* [self.session.close()] *)

(** The reply to a quote request: the HTTP status and, when the body decodes
    to an object holding a ['data'] object, the five keys read from it (a key
    that is absent is [None]). *)
Record watch_data : Type := mk_watch_data {
  tradeprice : option pyval;
  vwap : option pyval;
  openingprice : option pyval;
  perchange : option pyval;
  highdpr : option pyval
}.

Record watch_reply : Type := mk_watch_reply {
  w_status : Z;
  w_data : option watch_data
}.

(** The reply to an order: the HTTP status and, when the body decodes to an
    object holding it, the value under ['code']. *)
Record order_reply : Type := mk_order_reply {
  o_status : Z;
  o_code : option pyval
}.

(** The reply to a market-status request: the HTTP status and, when the body
    decodes to an object holding it, the value of [["data"]["status"]]. *)
Record status_reply : Type := mk_status_reply {
  ms_status : Z;
  ms_payload : option pyval
}.

(** How a coroutine stands when its replies are used up or it has ended. *)
Inductive ending : Type :=
| Returned
| Raised (e : exn)
| Waiting.

Record run : Type := mk_run {
  ending_of : ending;
  state_of : stock_state;
  trace_of : list event
}.

Definition prepend (evs : list event) (r : run) : run :=
  mk_run (ending_of r) (state_of r) (evs ++ trace_of r).

(** ** The coroutines of [NEPSEAutoBuyer] *)

Section Buyer.

(** [float(s)] on a string: Python's conversion of text, [None] where it
    raises [ValueError]. *)
Variable float_of_str : string -> option float.

(** [float(v)] *)
Definition float_of (v : pyval) : option float :=
  match v with
  | PyNone => None
  | PyNum x => Some x
  | PyStr s => float_of_str s
  end.

(** [float(v.replace(',', ''))]: only a string has [replace]. *)
Definition float_of_text (v : pyval) : result float :=
  match v with
  | PyStr s => of_option ValueError (float_of_str (remove_commas s))
  | _ => Raise AttributeError
  end.

(** [float(v or 0)] *)
Definition float_or_0 (v : pyval) : option float :=
  if truthy v then float_of v else Some 0%float.

(** [float(str(v).replace(',', ''))]: the text of a float reads back as that
    float, the text of [None] is not a number. *)
Definition float_of_repr (v : pyval) : option float :=
  match v with
  | PyNone => None
  | PyNum x => Some x
  | PyStr s => float_of_str (remove_commas s)
  end.

(** A statement of a [try] block that stops the block where it raises,
    keeping the assignments made so far. *)
Definition attempt {A : Type} (o : option A) (st : stock_state)
    (k : A -> stock_state * bool) : stock_state * bool :=
  match o with
  | Some a => k a
  | None => (st, false)
  end.

Definition to_opt {A : Type} (r : result A) : option A :=
  match r with
  | Ok a => Some a
  | Raise _ => None
  end.

(** The [try] block of [watch_stock]: the five assignments in order; [false]
    when one of them raised. *)
Definition read_watch (d : option watch_data) (st : stock_state)
    : stock_state * bool :=
  attempt d st (fun d =>
  attempt (tradeprice d) st (fun v =>
  let st := set_ltp v st in
  attempt (match vwap d with
           | Some v => to_opt (float_of_text v)
           | None => None
           end) st (fun x =>
  let st := set_previous_day_closing x st in
  attempt (openingprice d) st (fun v =>
  let st := set_opening_price v st in
  attempt (match perchange d with
           | Some v => float_or_0 v
           | None => None
           end) st (fun x =>
  let st := set_percent x st in
  attempt (match highdpr d with
           | Some v =>
               match float_of_repr v with
               | Some h => to_opt (PyFloat.trunc1 h)
               | None => None
               end
           | None => None
           end) st (fun x =>
  (set_circuit_price x st, true))))))).

(** [watch_stock(symbol, state)] on its reply: the state it leaves, what it
    sent and logged, and the exception it raised, if any. *)
Definition watch_stock (symbol : string) (r : watch_reply) (st : stock_state)
    : stock_state * list event * option exn :=
  if w_status r =? 200 then
    match read_watch (w_data r) st with
    | (st', true) => (st', [EvWatch symbol], None)
    | (st', false) =>
        (st', [EvWatch symbol; EvLog LogWatchError],
         Some (Exception "Seems like market is closed!"))
    end
  else (st, [EvWatch symbol], Some (Exception "Failed to fetch watch details!")).

(** The order [place_buy_order(symbol, state, quantity)] posts. *)
Definition order_of (symbol : string) (st : stock_state) (quantity : Z) : order :=
  {| txtSecurity := symbol;
     spnQuantity := quantity;
     spnPrice := high_price st;
     marketPrice := ltp_p st;
     duplicateOrderId := duplicate_order_id st |}.

(** [place_buy_order(symbol, state, quantity)] on its reply: what it sent
    and logged, and the exception it raised, if any. *)
Definition place_buy_order (symbol : string) (st : stock_state) (quantity : Z)
    (r : order_reply) : list event * option exn :=
  let sent := EvOrder (order_of symbol st quantity) in
  if o_status r =? 200 then
    match o_code r with
    | Some c =>
        if eq_str c "0"
        then ([sent; EvLog LogOrderTime;
               EvLog (LogOrderPlaced symbol quantity (high_price st))], None)
        else ([sent; EvLog LogOrderTime], None)
    | None =>
        ([sent; EvLog LogOrderTime],
         Some (Exception "Buy Response is not in expected format!"))
    end
  else ([sent], Some (Exception "Failed to place buy order!")).

(** [state['circuit_per']] as [detect] computes it:
    [int(((circuit_price - previous_day_closing) * 100 / previous_day_closing) * 100) / 100]. *)
Definition circuit_per_of (ceiling close : float) : result float :=
  bind (PyFloat.float_div ((ceiling - close) * 100)%float close) PyFloat.trunc2.

(** The probing quantity, [applied_qnty = 10] at the head of [detect]. *)
Definition default_qnty : Z := 10.

(** The handler of [detect]: [except Exception as e: log.info("%s", e); return]. *)
Definition handled (e : exn) (st : stock_state) (evs : list event) : run :=
  mk_run Returned st (evs ++ [EvLog (LogException e)]).

(** One pass through the body of [while True] down to the poll that ends
    it. *)
Inductive pass : Type :=
| ToPoll (st : stock_state) (os : list order_reply) (evs : list event)
| Ended (r : run).

Definition iteration (symbol : string) (os : list order_reply)
    (st : stock_state) : pass :=
  match float_of_text (ltp st) with
  | Raise e => Ended (handled e st [])
  | Ok p =>
      let st := set_ltp_p p st in
      match PyFloat.trunc1 (ltp_p st * 1.02)%float with
      | Raise e => Ended (handled e st [])
      | Ok h =>
          let st := set_high_price h st in
          if PyFloat.gt (percent st) (initial_per st) then
            match nth_error (duplicate_order_ids st) (order_id_index st) with
            | None => Ended (handled IndexError st [])
            | Some token =>
                let st := set_duplicate_order_id (Some token) st in
                let st := set_remain_per (circuit_per st - percent st)%float st in
                if PyFloat.le (remain_per st) 2.1 then
                  let st := set_high_price (circuit_price st) st in
                  match os with
                  | [] => Ended (mk_run Waiting st
                                   [EvOrder (order_of symbol st (applied_qnty st))])
                  | o :: _ =>
                      match place_buy_order symbol st (applied_qnty st) o with
                      | (evs, Some e) => Ended (handled e st evs)
                      | (evs, None) => Ended (mk_run Returned st evs)
                      end
                  end
                else
                  match os with
                  | [] => Ended (mk_run Waiting st
                                   [EvOrder (order_of symbol st default_qnty)])
                  | o :: os' =>
                      match place_buy_order symbol st default_qnty o with
                      | (evs, Some e) => Ended (handled e st evs)
                      | (evs, None) =>
                          let st := set_initial_per (percent st) st in
                          let st := set_order_id_index (S (order_id_index st)) st in
                          ToPoll st os' evs
                      end
                  end
            end
          else ToPoll st os []
      end
  end.

(** The [while True] loop of [detect] with its handler: [ws] are the replies
    to its quote requests, [os] to its orders. *)
Fixpoint active (symbol : string) (ws : list watch_reply)
    (os : list order_reply) (st : stock_state) : run :=
  match iteration symbol os st with
  | Ended r => r
  | ToPoll st os evs =>
      match ws with
      | [] => mk_run Waiting st (evs ++ [EvWatch symbol])
      | w :: ws' =>
          match watch_stock symbol w st with
          | (st', evs', Some e) => handled e st' (evs ++ evs')
          | (st', evs', None) => prepend (evs ++ evs') (active symbol ws' os st')
          end
      end
  end.

(** The first loop of [detect], [while not state['opening_price']], which no
    handler covers. *)
Inductive opening : Type :=
| Opened (ws : list watch_reply) (st : stock_state) (evs : list event)
| NotOpened (r : run).

Fixpoint await_open (symbol : string) (ws : list watch_reply)
    (st : stock_state) : opening :=
  if truthy (opening_price st) then Opened ws st []
  else
    match ws with
    | [] => NotOpened (mk_run Waiting st [EvWatch symbol])
    | w :: ws' =>
        match watch_stock symbol w st with
        | (st', evs, Some e) => NotOpened (mk_run (Raised e) st' evs)
        | (st', evs, None) =>
            match await_open symbol ws' st' with
            | Opened ws'' st'' evs' => Opened ws'' st'' (evs ++ evs')
            | NotOpened r => NotOpened (prepend evs r)
            end
        end
    end.

(** [detect(symbol)] run on the entry [st] of [self.stock_states]. *)
Definition detect (symbol : string) (ws : list watch_reply)
    (os : list order_reply) (st : stock_state) : run :=
  match await_open symbol ws st with
  | NotOpened r => r
  | Opened ws' st evs =>
      match circuit_per_of (circuit_price st) (previous_day_closing st) with
      | Raise e => mk_run (Raised e) st evs
      | Ok c => prepend evs (active symbol ws' os (set_circuit_per c st))
      end
  end.

(** [market_status()]: the value it returns and what it sent and logged.
    The final [return None] is reached on any status and after the handler
    of the [try] block. *)
Definition market_status (r : status_reply) : pyval * list event :=
  if ms_status r =? 200 then
    match ms_payload r with
    | Some v => (v, [EvStatus])
    | None => (PyNone, [EvStatus; EvLog LogStatusError])
    end
  else (PyNone, [EvStatus]).

(** The test of [wait_market_open]:
    [current_time.hour >= 11 and status != "Close"]. *)
Definition gate_open (hour : Z) (status : pyval) : bool :=
  (hour >=? 11) && negb (eq_str status "Close").

(** [wait_market_open()]: each round reads the clock (its hour is the first
    component of a tick) and the market status (the second); [ws] are the
    replies to the quote requests for the demo symbol, whose entry is
    [st].  Returns the replies left over too. *)
Fixpoint wait_market_open (demo_symbol : string)
    (ticks : list (Z * status_reply)) (ws : list watch_reply)
    (st : stock_state) : run * list watch_reply :=
  match ticks with
  | [] => (mk_run Waiting st [EvStatus], ws)
  | (hour, r) :: ticks' =>
      let (status, evs) := market_status r in
      if gate_open hour status then (mk_run Returned st evs, ws)
      else
        match ws with
        | [] => (mk_run Waiting st (evs ++ [EvWatch demo_symbol]), ws)
        | w :: ws' =>
            match watch_stock demo_symbol w st with
            | (st', evs', Some e) => (mk_run (Raised e) st' (evs ++ evs'), ws')
            | (st', evs', None) =>
                let (r, rest) := wait_market_open demo_symbol ticks' ws' st' in
                (prepend (evs ++ evs') r, rest)
            end
        end
  end.

End Buyer.

(** ** The token pool *)

Definition chars : string :=
  "123456789abcdefghijklmnopqrstuvwxyzABCDEFGHIJKLMNOPQRSTUVWXYZ".

(** [chars[:-2]] *)
Definition trimmed_chars : string :=
  substring 0 (String.length chars - 2) chars.

(** [random.choices(population, k=k)] takes [population[floor(random() * n)]]
    [k] times, [n] the size of the population.  The variate [random()] lies in
    the interval from 0 to 1, 1 excluded, and enters through that index only:
    the source of randomness is modelled as the sequence [rng] of the indices
    drawn, each reduced below [n], read from position [pos] on. *)
Fixpoint choices (rng : nat -> nat) (population : string) (k pos : nat) : string :=
  match k with
  | O => EmptyString
  | S k' =>
      match String.get (rng pos mod String.length population) population with
      | Some c => String c (choices rng population k' (S pos))
      | None => EmptyString
      end
  end.

(** [generate_duplicate_order_id()] with the random sequence at [pos]. *)
Definition generate_duplicate_order_id (rng : nat -> nat) (pos : nat) : string :=
  choices rng trimmed_chars 10 pos.

(** The inner loop of [setup], [n] rounds of
    [state['duplicate_order_ids'].append(...)]; returns the position reached
    in the random sequence too. *)
Fixpoint fill_pool (rng : nat -> nat) (n pos : nat) (st : stock_state)
    : stock_state * nat :=
  match n with
  | O => (st, pos)
  | S n' =>
      let token := generate_duplicate_order_id rng pos in
      fill_pool rng n' (pos + 10)
        (set_duplicate_order_ids (duplicate_order_ids st ++ [token]) st)
  end.

(** The outer loop of [setup] over [self.stock_states.values()]. *)
Fixpoint fill_pools (rng : nat -> nat) (pos : nat)
    (states : list (string * stock_state)) : list (string * stock_state) :=
  match states with
  | [] => []
  | (symbol, st) :: rest =>
      let (st', pos') := fill_pool rng 20 pos st in
      (symbol, st') :: fill_pools rng pos' rest
  end.

(** ** The orchestrator *)

(** The replies to the three requests made before the market gate.  A cookie
    reply holds the [JSESSIONID] cookie when the response sets one; a login
    reply holds, when the body decodes to an object, the values under
    ['code'], ['watchID'] and ['broker_code'] (an absent key is [None]); a
    details reply tells whether the body decodes to an object holding
    [['data']['userids'][0]] with the four keys read from it. *)
Record cookie_reply : Type := mk_cookie_reply {
  c_status : Z;
  c_jsessionid : option string
}.

Record login_data : Type := mk_login_data {
  l_code : option pyval;
  l_watchID : option pyval;
  l_broker_code : option pyval
}.

Record login_reply : Type := mk_login_reply {
  l_status : Z;
  l_data : option login_data
}.

Record details_reply : Type := mk_details_reply {
  d_status : Z;
  d_user : bool
}.

(** Everything a run receives from outside. *)
Record world : Type := mk_world {
  rng : nat -> nat;
  cookies_in : cookie_reply;
  login_in : login_reply;
  details_in : details_reply;
  ticks_in : list (Z * status_reply);
  watch_in : string -> list watch_reply;
  orders_in : string -> list order_reply
}.

(** The object [__init__] builds, reduced to what [runner] goes through:
    [self.session] (is one open), [self.demo_symbol] and [self.stock_states],
    the dictionary in insertion order. *)
Record bot : Type := mk_bot {
  session : bool;
  demo_symbol : string;
  stock_states : list (string * stock_state)
}.

(** [s.upper()] for a symbol written in ASCII only, as the symbols of
    [__main__] are: the letters a to z become A to Z and every other ASCII
    character stays.  It says nothing of text beyond ASCII, where
    [str.upper] follows the case mappings of Unicode; [new_bot] below takes
    the upper-casing as a parameter, and this one serves the examples. *)
Module AsciiText.

Definition is_ascii (s : string) : bool :=
  forallb (fun c => Nat.ltb (nat_of_ascii c) 128) (list_ascii_of_string s).

Definition upper_ascii (c : ascii) : ascii :=
  let n := nat_of_ascii c in
  if (Nat.leb 97 n && Nat.leb n 122)%bool then ascii_of_nat (n - 32) else c.

Fixpoint upper (s : string) : string :=
  match s with
  | EmptyString => EmptyString
  | String c s' => String (upper_ascii c) (upper s')
  end.

End AsciiText.

(** [d[k] = v] on a dictionary kept in insertion order. *)
Fixpoint dict_set {A : Type} (k : string) (v : A) (d : list (string * A))
    : list (string * A) :=
  match d with
  | [] => [(k, v)]
  | (k', v') :: d' =>
      if String.eqb k k' then (k, v) :: d' else (k', v') :: dict_set k v d'
  end.

Fixpoint dict_get {A : Type} (k : string) (d : list (string * A)) : option A :=
  match d with
  | [] => None
  | (k', v) :: d' => if String.eqb k k' then Some v else dict_get k d'
  end.

Section Construction.

(** [str.upper] of the interpreter: the upper-casing of a symbol, whatever
    its characters. *)
Variable upper : string -> string.

(** [NEPSEAutoBuyer(broker_site, stocks_config, username, password)];
    [self.stocks_config[0]] raises [IndexError] on an empty configuration. *)
Definition new_bot (stocks_config : list (string * Z)) : result bot :=
  let config := map (fun cfg => (upper (fst cfg), snd cfg)) stocks_config in
  match config with
  | [] => Raise IndexError
  | (demo, _) :: _ =>
      Ok {| session := false;
            demo_symbol := demo;
            stock_states :=
              fold_left (fun d cfg => dict_set (fst cfg) (init_state (snd cfg)) d)
                config [] |}
  end.

End Construction.

(** [get_cookies()]: [response.cookies.get('JSESSIONID').value] on status 200,
    else [None]. *)
Definition get_cookies (r : cookie_reply) : result (option string) :=
  if c_status r =? 200 then
    match c_jsessionid r with
    | Some v => Ok (Some v)
    | None => Raise AttributeError
    end
  else Ok None.

(** [login()]: what it sent and logged, and the exception it raised, if any. *)
Definition login (r : login_reply) : list event * option exn :=
  if l_status r =? 200 then
    match l_data r with
    | None => ([EvLogin], Some ValueError)
    | Some data =>
        match l_code data with
        | None => ([EvLogin], Some KeyError)
        | Some code =>
            if eq_str code "0" then
              match l_watchID data, l_broker_code data with
              | Some _, Some _ => ([EvLogin; EvLog LogLogin], None)
              | _, _ => ([EvLogin], Some KeyError)
              end
            else ([EvLogin],
                  Some (Exception "Unexpected response during login process"))
        end
    end
  else ([EvLogin], Some (Exception "Login failed! due to bad request")).

(** [fetch_user_details()] *)
Definition fetch_user_details (r : details_reply) : list event * option exn :=
  if d_status r =? 200 then
    if d_user r then ([EvDetails; EvLog LogDetails], None)
    else ([EvDetails],
          Some (Exception "Details Response is not in expected format!"))
  else ([EvDetails], Some (Exception "Failed to fetch details!")).

(** [close()]: [if self.session: await self.session.close()] *)
Definition close (b : bot) : bot * list event :=
  if session b then (mk_bot false (demo_symbol b) (stock_states b), [EvClose])
  else (b, []).

(** How a run of [runner] stands. *)
Record outcome : Type := mk_outcome {
  ended : ending;
  bot_of : bot;
  events : list event
}.

Section Runner.

Variable float_of_str : string -> option float.
Variable w : world.

(** The tasks [asyncio.gather] runs with [return_exceptions=True], one
    [detect(symbol)] per key of [self.stock_states]: each works on its own
    entry with its own replies.  [demo_left] are the quote replies the
    market gate left for the demo symbol. *)
Definition task (demo : string) (demo_left : list watch_reply)
    (entry : string * stock_state) : run :=
  let symbol := fst entry in
  detect float_of_str symbol
    (if String.eqb symbol demo then demo_left else watch_in w symbol)
    (orders_in w symbol) (snd entry).

Definition is_waiting (r : run) : bool :=
  match ending_of r with
  | Waiting => true
  | _ => false
  end.

(** [runner()] on a constructed bot.  The events of the tasks are listed
    task by task: how they interleave in time is not part of the model. *)
Definition runner (b : bot) : outcome :=
  (* setup *)
  let b := mk_bot true (demo_symbol b) (stock_states b) in
  match get_cookies (cookies_in w) with
  | Raise e => mk_outcome (Raised e) b [EvCookies]
  | Ok _ =>
      let b := mk_bot (session b) (demo_symbol b)
                 (fill_pools (rng w) 0 (stock_states b)) in
      match login (login_in w) with
      | (evs1, Some e) => mk_outcome (Raised e) b (EvCookies :: evs1)
      | (evs1, None) =>
          match fetch_user_details (details_in w) with
          | (evs2, Some e) => mk_outcome (Raised e) b (EvCookies :: evs1 ++ evs2)
          | (evs2, None) =>
              let pre := EvCookies :: evs1 ++ evs2 in
              let demo := demo_symbol b in
              match dict_get demo (stock_states b) with
              | None => mk_outcome (Raised KeyError) b pre
              | Some st =>
                  let (g, left) :=
                    wait_market_open float_of_str demo (ticks_in w)
                      (watch_in w demo) st in
                  let b := mk_bot (session b) demo
                             (dict_set demo (state_of g) (stock_states b)) in
                  match ending_of g with
                  | Raised e => mk_outcome (Raised e) b (pre ++ trace_of g)
                  | Waiting => mk_outcome Waiting b (pre ++ trace_of g)
                  | Returned =>
                      let runs := map (task demo left) (stock_states b) in
                      let b := mk_bot (session b) demo
                                 (combine (map fst (stock_states b))
                                    (map state_of runs)) in
                      let evs := pre ++ trace_of g ++ List.concat (map trace_of runs) in
                      if existsb is_waiting runs then mk_outcome Waiting b evs
                      else
                        let (b, evs') := close b in
                        mk_outcome Returned b (evs ++ evs')
                  end
              end
          end
      end
  end.

End Runner.

(** ** Reading traces and runs *)

(** The orders a trace submits, in order. *)
Fixpoint orders (tr : list event) : list order :=
  match tr with
  | [] => []
  | EvOrder o :: tr' => o :: orders tr'
  | _ :: tr' => orders tr'
  end.

(** The symbols a trace polls a quote for, in order. *)
Fixpoint polls (tr : list event) : list string :=
  match tr with
  | [] => []
  | EvWatch s :: tr' => s :: polls tr'
  | _ :: tr' => polls tr'
  end.

Definition is_log (ev : event) : Prop :=
  match ev with
  | EvLog _ => True
  | _ => False
  end.

Definition pass_events (p : pass) : list event :=
  match p with
  | ToPoll _ _ evs => evs
  | Ended r => trace_of r
  end.

(** The characters of a string. *)
Fixpoint characters (s : string) : list ascii :=
  match s with
  | EmptyString => []
  | String c s' => c :: characters s'
  end.

(** A letter or a digit of ASCII. *)
Definition alphanumeric (c : ascii) : bool :=
  let n := nat_of_ascii c in
  ((Nat.leb 48 n && Nat.leb n 57) || (Nat.leb 65 n && Nat.leb n 90)
   || (Nat.leb 97 n && Nat.leb n 122))%bool.

Section Runs.

Variable float_of_str : string -> option float.
Variable symbol : string.

(** One round of the [while True] loop of [detect] that comes back to the
    head of the loop: the body falls through to the poll and the poll
    succeeds. *)
Inductive round : list watch_reply * list order_reply * stock_state ->
                  list event ->
                  list watch_reply * list order_reply * stock_state -> Prop :=
| round_intro w ws os st st1 os1 evs1 st2 evs2 :
    iteration float_of_str symbol os st = ToPoll st1 os1 evs1 ->
    watch_stock float_of_str symbol w st1 = (st2, evs2, None) ->
    round (w :: ws, os, st) (evs1 ++ evs2) (ws, os1, st2).

(** [reaches c evs c']: the loop entered at the head with the replies and
    state [c] is at the head again, after some rounds, with [c'], having
    produced [evs]. *)
Inductive reaches : list watch_reply * list order_reply * stock_state ->
                    list event ->
                    list watch_reply * list order_reply * stock_state -> Prop :=
| reaches_refl c : reaches c [] c
| reaches_step c evs c' evs' c'' :
    round c evs c' -> reaches c' evs' c'' -> reaches c (evs ++ evs') c''.

End Runs.

(** The keys of an entry that a quote poll does not assign. *)
Definition same_beyond_quote (st st' : stock_state) : Prop :=
  applied_qnty st' = applied_qnty st /\
  ltp_p st' = ltp_p st /\
  high_price st' = high_price st /\
  initial_per st' = initial_per st /\
  circuit_per st' = circuit_per st /\
  remain_per st' = remain_per st /\
  duplicate_order_id st' = duplicate_order_id st /\
  duplicate_order_ids st' = duplicate_order_ids st /\
  order_id_index st' = order_id_index st.

(** The entry after lines 230-231 of [detect]: the parsed trade price and the
    limit price written. *)
Definition priced (p h : float) (st : stock_state) : stock_state :=
  set_high_price h (set_ltp_p p st).

(** The entry after lines 234-235: the token drawn and the gap written. *)
Definition drawn (token : string) (st : stock_state) : stock_state :=
  set_remain_per (circuit_per st - percent st)%float
    (set_duplicate_order_id (Some token) st).

(** The keys of an entry that outlive a round of the loop of [detect]: all
    but the quote ([ltp], [previous_day_closing], [opening_price], [percent],
    [circuit_price]) and the two values computed from it at the head of every
    round, the parsed trade price [ltp_p] and the limit price [high_price]. *)
Definition same_watch_state (st st' : stock_state) : Prop :=
  applied_qnty st' = applied_qnty st /\
  initial_per st' = initial_per st /\
  circuit_per st' = circuit_per st /\
  remain_per st' = remain_per st /\
  duplicate_order_id st' = duplicate_order_id st /\
  duplicate_order_ids st' = duplicate_order_ids st /\
  order_id_index st' = order_id_index st.

(** The number of times a trace closes the session. *)
Fixpoint closes (tr : list event) : nat :=
  match tr with
  | [] => 0
  | EvClose :: tr' => S (closes tr')
  | _ :: tr' => closes tr'
  end.

(** A token as [generate_duplicate_order_id] makes them: ten characters of
    the trimmed alphabet. *)
Definition well_formed_token (t : string) : Prop :=
  String.length t = 10%nat /\
  Forall (fun c => In c (characters trimmed_chars)) (characters t).

(** ** Running the loop round by round *)

Section Rounds.

Variable float_of_str : string -> option float.
Variable symbol : string.

(** [round], computed: the configuration one round leads to and what the
    round produced, when the body falls through to a poll that succeeds. *)
Definition one_round (c : list watch_reply * list order_reply * stock_state)
    : option (list event * (list watch_reply * list order_reply * stock_state)) :=
  match c with
  | (w :: ws, os, st) =>
      match iteration float_of_str symbol os st with
      | ToPoll st1 os1 evs1 =>
          match watch_stock float_of_str symbol w st1 with
          | (st2, evs2, None) => Some (evs1 ++ evs2, (ws, os1, st2))
          | (_, _, Some _) => None
          end
      | Ended _ => None
      end
  | ([], _, _) => None
  end.

(** [reaches], computed over [n] rounds. *)
Fixpoint advance (n : nat) (c : list watch_reply * list order_reply * stock_state)
    : option (list event * (list watch_reply * list order_reply * stock_state)) :=
  match n with
  | O => Some ([], c)
  | S n' =>
      match one_round c with
      | Some (evs, c') =>
          match advance n' c' with
          | Some (evs', c'') => Some (evs ++ evs', c'')
          | None => None
          end
      | None => None
      end
  end.

End Rounds.

(** ** A session used in the examples

    The symbol JHAPA with a configured quantity of 300, a previous close of
    100.0 and a ceiling of 110.0; the random sequence draws the alphabet in
    order. *)
Module Example.

Definition quote (price change : string) : watch_reply :=
  mk_watch_reply 200
    (Some {| tradeprice := Some (PyStr price);
             vwap := Some (PyStr "100.0");
             openingprice := Some (PyStr "101.0");
             perchange := Some (PyStr change);
             highdpr := Some (PyStr "110.0") |}).

Definition accepted : order_reply := mk_order_reply 200 (Some (PyStr "0")).

(** The entry of the symbol after [setup]. *)
Definition entry : stock_state :=
  Eval vm_compute in fst (fill_pool (fun n => n) 20 0 (init_state 300)).

(** The entry at the head of the loop of [detect] when the quote
    [quote price change] opened the session. *)
Definition head (price change : string) : stock_state :=
  set_circuit_per 10
    (fst (fst (watch_stock Decimal.float_of_str "JHAPA" (quote price change) entry))).

Definition head_1 : stock_state := Eval vm_compute in head "1,002" "1.0".

(** One round from [head_1]: a probing order, then the quote 7.95. *)
Definition events_1 : list event :=
  Eval vm_compute in
    match advance Decimal.float_of_str "JHAPA" 1
            ([quote "1,003" "7.95"], [accepted; accepted], head_1) with
    | Some (evs, _) => evs
    | None => []
    end.

Definition head_2 : stock_state :=
  Eval vm_compute in
    match advance Decimal.float_of_str "JHAPA" 1
            ([quote "1,003" "7.95"], [accepted; accepted], head_1) with
    | Some (_, (_, _, st)) => st
    | None => head_1
    end.

(** A session that climbs by a tenth of a percent at every quote, from
    0.1 to 2.1: twenty probing orders, then a twenty-first quote that
    qualifies. *)
Definition ladder : list watch_reply :=
  map (quote "1,000")
    ["0.2"; "0.3"; "0.4"; "0.5"; "0.6"; "0.7"; "0.8"; "0.9"; "1.0"; "1.1";
     "1.2"; "1.3"; "1.4"; "1.5"; "1.6"; "1.7"; "1.8"; "1.9"; "2.0"; "2.1"].

Definition head_0 : stock_state := Eval vm_compute in head "1,000" "0.1".

Definition events_20 : list event :=
  Eval vm_compute in
    match advance Decimal.float_of_str "JHAPA" 20
            (ladder, repeat accepted 20, head_0) with
    | Some (evs, _) => evs
    | None => []
    end.

Definition head_20 : stock_state :=
  Eval vm_compute in
    match advance Decimal.float_of_str "JHAPA" 20
            (ladder, repeat accepted 20, head_0) with
    | Some (_, (_, _, st)) => st
    | None => head_0
    end.

(** One round from [head_1] when the next quote repeats the percent change
    1.0: the entry at the head of the following round. *)
Definition stale : stock_state :=
  Eval vm_compute in
    match advance Decimal.float_of_str "JHAPA" 1
            ([quote "1,002" "1.0"], [accepted], head_1) with
    | Some (_, (_, _, st)) => st
    | None => head_1
    end.

(** One round from [head_1] when the next quote repeats the percent change
    1.0 at a trade price of 1,050: the entry at the head of the following
    round, and the events of the round. *)
Definition repriced : stock_state :=
  Eval vm_compute in
    match advance Decimal.float_of_str "JHAPA" 1
            ([quote "1,050" "1.0"], [accepted], head_1) with
    | Some (_, (_, _, st)) => st
    | None => head_1
    end.

Definition events_repriced : list event :=
  Eval vm_compute in
    match advance Decimal.float_of_str "JHAPA" 1
            ([quote "1,050" "1.0"], [accepted], head_1) with
    | Some (evs, _) => evs
    | None => []
    end.

(** The bot of [__main__] cut down to two symbols, and replies with which
    every step before the tasks succeeds; the session never opens for
    SAGAR, whose quote request fails. *)
Definition the_bot : bot :=
  mk_bot false "JHAPA" [("JHAPA", init_state 300); ("SAGAR", init_state 350)].

Definition watch_replies (symbol : string) : list watch_reply :=
  if String.eqb symbol "JHAPA" then [quote "1,002" "8.0"]
  else [mk_watch_reply 500 None].

Definition good_world : world :=
  {| rng := fun n => n;
     cookies_in := mk_cookie_reply 200 (Some "0A1B2C");
     login_in :=
       mk_login_reply 200
         (Some (mk_login_data (Some (PyStr "0")) (Some (PyStr "17"))
                  (Some (PyStr "10"))));
     details_in := mk_details_reply 200 true;
     ticks_in := [(11, mk_status_reply 200 (Some (PyStr "Open")))];
     watch_in := watch_replies;
     orders_in := fun _ => [accepted] |}.

(** The same replies, but the login request is answered with status 500. *)
Definition login_refused : world :=
  {| rng := rng good_world;
     cookies_in := cookies_in good_world;
     login_in := mk_login_reply 500 None;
     details_in := details_in good_world;
     ticks_in := ticks_in good_world;
     watch_in := watch_in good_world;
     orders_in := orders_in good_world |}.

(** Replies that go wrong in one way each: a quote without ceiling price, a
    quote with an empty percent change, a quote with a close of zero, an
    order the broker answers with a code other than ['0'], an order request
    that fails. *)
Definition quote_without_ceiling : watch_reply :=
  mk_watch_reply 200
    (Some {| tradeprice := Some (PyStr "1,002");
             vwap := Some (PyStr "100.0");
             openingprice := Some (PyStr "101.0");
             perchange := Some (PyStr "1.0");
             highdpr := None |}).

Definition quote_blank_change : watch_reply :=
  mk_watch_reply 200
    (Some {| tradeprice := Some (PyStr "1,002");
             vwap := Some (PyStr "100.0");
             openingprice := Some (PyStr "101.0");
             perchange := Some (PyStr "");
             highdpr := Some (PyStr "110.0") |}).

Definition quote_zero_close : watch_reply :=
  mk_watch_reply 200
    (Some {| tradeprice := Some (PyStr "1,002");
             vwap := Some (PyStr "0");
             openingprice := Some (PyStr "101.0");
             perchange := Some (PyStr "1.0");
             highdpr := Some (PyStr "110.0") |}).

Definition refused : order_reply := mk_order_reply 200 (Some (PyStr "1")).

Definition failed : order_reply := mk_order_reply 500 None.

(** The replies of [good_world], started before 11 with the quote request of
    the gate failing; and with the cookie request answered with status 403. *)
Definition early_world : world :=
  {| rng := rng good_world;
     cookies_in := cookies_in good_world;
     login_in := login_in good_world;
     details_in := details_in good_world;
     ticks_in := [(10, mk_status_reply 200 (Some (PyStr "Open")))];
     watch_in := fun _ => [mk_watch_reply 500 None];
     orders_in := orders_in good_world |}.

Definition cookie_refused : world :=
  {| rng := rng good_world;
     cookies_in := mk_cookie_reply 403 None;
     login_in := login_in good_world;
     details_in := details_in good_world;
     ticks_in := ticks_in good_world;
     watch_in := watch_in good_world;
     orders_in := orders_in good_world |}.

(** The replies of [good_world] with the details request answered by a body
    that does not hold the user's identifiers. *)
Definition details_unreadable : world :=
  {| rng := rng good_world;
     cookies_in := cookies_in good_world;
     login_in := login_in good_world;
     details_in := mk_details_reply 200 false;
     ticks_in := ticks_in good_world;
     watch_in := watch_in good_world;
     orders_in := orders_in good_world |}.

End Example.

(** A probing order of [detect] for [symbol]: the probing quantity, at the
    limit price computed from the trade price it reports. *)
Definition probe_shape (symbol : string) (o : order) : Prop :=
  txtSecurity o = symbol /\
  spnQuantity o = default_qnty /\
  PyFloat.trunc1 (marketPrice o * 1.02)%float = Ok (spnPrice o).

(** Two entries that differ in the token pool at most. *)
Definition same_except_pool (st st' : stock_state) : Prop :=
  set_duplicate_order_ids (duplicate_order_ids st) st' = st.

(** ** The terminal handler *)

(** [needle in s] on strings. *)
Fixpoint contains (needle s : string) : bool :=
  if String.prefix needle s then true
  else match s with
       | EmptyString => false
       | String _ s' => contains needle s'
       end.

(** [TerminalFilter.filter] on the message of a record. *)
Definition terminal_filter (message : string) : bool :=
  contains "Login successfully!" message
  || contains "Details fetched successfully!" message.

(** The message of a log record, for the records whose message is worded by
    the program alone: the two fixed messages of [login] and
    [fetch_user_details], and the text of an exception the program raised
    itself, which [detect] logs as it is.  The other messages carry text
    formatted from a number, a time or an exception of the interpreter. *)
Definition record_text (r : log_record) : option string :=
  match r with
  | LogLogin => Some "Strated the training process"
  | LogDetails => Some "Wait until the process is completed..."
  | LogException (Exception msg) => Some msg
  | _ => None
  end.

(** An event that the terminal does not show, as far as its message is
    worded by the program. *)
Definition off_terminal (ev : event) : Prop :=
  match ev with
  | EvLog r =>
      match record_text r with
      | Some message => terminal_filter message = false
      | None => True
      end
  | _ => True
  end.

(** An exception whose text, if the program worded it, the terminal filter
    refuses. *)
Definition off_terminal_exn (e : exn) : Prop := off_terminal (EvLog (LogException e)).

(** * Properties *)

(** ** Comparison of floats *)

Lemma SFcompare_swap (x y : spec_float) :
  SFcompare y x = option_map CompOpp (SFcompare x y).
Proof.
  destruct x as [sx | sx | | sx mx ex], y as [sy | sy | | sy my ey];
    simpl; try reflexivity;
    try (destruct sx; reflexivity); try (destruct sy; reflexivity);
    try (destruct sx, sy; reflexivity).
  destruct sx, sy; simpl; try reflexivity;
    rewrite (Z.compare_antisym ex ey); destruct (ex ?= ey) eqn:E; simpl;
    try reflexivity;
    change (PosDef.Pos.compare_cont Eq my mx) with (Pos.compare my mx);
    change (PosDef.Pos.compare_cont Eq mx my) with (Pos.compare mx my);
    rewrite (Pos.compare_antisym mx my);
    destruct (Pos.compare mx my); reflexivity.
Qed.

Lemma gt_asym (x y : float) : PyFloat.gt x y = true -> PyFloat.gt y x = false.
Proof.
  unfold PyFloat.gt. rewrite !ltb_spec. unfold SFltb.
  rewrite (SFcompare_swap (Prim2SF y) (Prim2SF x)).
  destruct (SFcompare (Prim2SF y) (Prim2SF x)) as [[]|]; simpl; congruence.
Qed.

Lemma gt_irrefl (x : float) : PyFloat.gt x x = false.
Proof.
  destruct (PyFloat.gt x x) eqn:E; [|reflexivity].
  pose proof (gt_asym x x E). congruence.
Qed.

Lemma eq_not_gt (x y : float) : (x =? y)%float = true -> PyFloat.gt x y = false.
Proof.
  unfold PyFloat.gt. rewrite eqb_spec, ltb_spec. unfold SFeqb, SFltb.
  rewrite (SFcompare_swap (Prim2SF x) (Prim2SF y)).
  destruct (SFcompare (Prim2SF x) (Prim2SF y)) as [[]|]; simpl; congruence.
Qed.

Lemma lt_not_gt (x y : float) : (x <? y)%float = true -> PyFloat.gt x y = false.
Proof. intros H. apply gt_asym. exact H. Qed.

(** ** Truncation *)

(** [int] cuts the fraction of a float off, toward zero. *)
Lemma int_of_float_truncates (x : float) (n : Z) :
  PyFloat.int_of_float x = Ok n -> PyFloat.truncation_of x n.
Proof.
  unfold PyFloat.int_of_float, PyFloat.truncation_of.
  destruct (Prim2SF x) as [s | s | | s m e]; try discriminate.
  - intros H; inversion H; reflexivity.
  - intros H; inversion H as [Hn]; clear H.
    assert (Ha : 0 <= Z.shiftl (Zpos m) e) by (apply Z.shiftl_nonneg; lia).
    assert (Habs : Z.abs (if s then - Z.shiftl (Zpos m) e else Z.shiftl (Zpos m) e)
                   = Z.shiftl (Zpos m) e)
      by (destruct s; lia).
    split; [destruct s; lia|].
    rewrite Habs.
    destruct (0 <=? e) eqn:E.
    + apply Z.leb_le in E. apply Z.shiftl_mul_pow2. exact E.
    + apply Z.leb_gt in E.
      rewrite Z.shiftl_div_pow2 by lia.
      assert (P : 0 < 2 ^ (- e)) by (apply Z.pow_pos_nonneg; lia).
      split.
      * rewrite Z.mul_comm. apply Z.mul_div_le. exact P.
      * rewrite Z.mul_comm. apply Z.mul_succ_div_gt. exact P.
Qed.

(** ** Traces *)

Lemma orders_app (tr tr' : list event) : orders (tr ++ tr') = orders tr ++ orders tr'.
Proof.
  induction tr as [|ev tr IH]; simpl; [reflexivity|].
  destruct ev; simpl; rewrite IH; reflexivity.
Qed.

Lemma polls_app (tr tr' : list event) : polls (tr ++ tr') = polls tr ++ polls tr'.
Proof.
  induction tr as [|ev tr IH]; simpl; [reflexivity|].
  destruct ev; simpl; rewrite IH; reflexivity.
Qed.

Lemma logs_no_orders (tr : list event) : Forall is_log tr -> orders tr = [] /\ polls tr = [].
Proof.
  induction 1 as [|ev tr Hev _ IH]; simpl; [split; reflexivity|].
  destruct ev; simpl in Hev; try contradiction. exact IH.
Qed.

(** ** The quote poll and the order *)

Section BuyerFacts.

Variable float_of_str : string -> option float.

Lemma read_watch_frame (d : option watch_data) (st st' : stock_state) (b : bool) :
  read_watch float_of_str d st = (st', b) -> same_beyond_quote st st'.
Proof.
  unfold read_watch, attempt, same_beyond_quote. intros H.
  repeat match type of H with
         | context [match ?x with _ => _ end] => destruct x
         end;
    inversion H; subst; simpl; repeat split; reflexivity.
Qed.

Lemma watch_stock_frame (symbol : string) (w : watch_reply)
    (st st' : stock_state) (evs : list event) (e : option exn) :
  watch_stock float_of_str symbol w st = (st', evs, e) -> same_beyond_quote st st'.
Proof.
  unfold watch_stock. intros H.
  destruct (w_status w =? 200).
  - destruct (read_watch float_of_str (w_data w) st) as [s b] eqn:R.
    apply read_watch_frame in R.
    destruct b; inversion H; subst; exact R.
  - inversion H; subst. unfold same_beyond_quote. repeat split; reflexivity.
Qed.

(** A poll sends one quote request and no order. *)
Lemma watch_stock_events (symbol : string) (w : watch_reply)
    (st st' : stock_state) (evs : list event) (e : option exn) :
  watch_stock float_of_str symbol w st = (st', evs, e) ->
  exists logs, evs = EvWatch symbol :: logs /\ Forall is_log logs.
Proof.
  unfold watch_stock. intros H.
  destruct (w_status w =? 200).
  - destruct (read_watch float_of_str (w_data w) st) as [s b].
    destruct b; inversion H; subst; eexists; split; try reflexivity;
      repeat constructor.
  - inversion H; subst. eexists; split; [reflexivity | constructor].
Qed.

(** An order submission sends one order, then only writes log records. *)
Lemma place_buy_order_events (symbol : string) (st : stock_state)
    (quantity : Z) (o : order_reply) (evs : list event) (e : option exn) :
  place_buy_order symbol st quantity o = (evs, e) ->
  exists logs, evs = EvOrder (order_of symbol st quantity) :: logs /\
               Forall is_log logs.
Proof.
  unfold place_buy_order. intros H.
  destruct (o_status o =? 200); [destruct (o_code o) as [c|]; [destruct (eq_str c "0")|]|];
    inversion H; subst; eexists; split; try reflexivity; repeat constructor.
Qed.

Lemma prepend_nil (r : run) : prepend [] r = r.
Proof. destruct r; reflexivity. Qed.

Lemma prepend_app (evs evs' : list event) (r : run) :
  prepend (evs ++ evs') r = prepend evs (prepend evs' r).
Proof. unfold prepend; simpl. rewrite app_assoc. reflexivity. Qed.

(** ** The body of the loop, case by case *)

(** The body falls through to the poll in two ways only: the quote is not
    above the last trigger and nothing is done, or a probing order was
    submitted and acknowledged. *)
Lemma iteration_ToPoll (symbol : string) (os os' : list order_reply)
    (st st' : stock_state) (evs : list event) :
  iteration float_of_str symbol os st = ToPoll st' os' evs ->
  exists p h,
    float_of_text float_of_str (ltp st) = Ok p /\
    PyFloat.trunc1 (p * 1.02)%float = Ok h /\
    ((PyFloat.gt (percent st) (initial_per st) = false /\
      st' = priced p h st /\ os' = os /\ evs = [])
     \/
     (PyFloat.gt (percent st) (initial_per st) = true /\
      exists token o,
        nth_error (duplicate_order_ids st) (order_id_index st) = Some token /\
        os = o :: os' /\
        PyFloat.le (circuit_per st - percent st) 2.1 = false /\
        place_buy_order symbol (drawn token (priced p h st)) default_qnty o
          = (evs, None) /\
        st' = set_order_id_index (S (order_id_index st))
                (set_initial_per (percent st) (drawn token (priced p h st))))).
Proof.
  unfold iteration. intros H.
  destruct (float_of_text float_of_str (ltp st)) as [p|e] eqn:P; [|discriminate].
  simpl in H.
  destruct (PyFloat.trunc1 (p * 1.02)%float) as [h|e] eqn:T; [|discriminate].
  exists p, h. split; [reflexivity|]. split; [exact T|].
  simpl in H.
  destruct (PyFloat.gt (percent st) (initial_per st)) eqn:G.
  - right. split; [reflexivity|].
    destruct (nth_error (duplicate_order_ids st) (order_id_index st))
      as [token|] eqn:N; [|discriminate].
    simpl in H.
    destruct (PyFloat.le (circuit_per st - percent st) 2.1) eqn:L.
    + destruct os as [|o os1]; [discriminate|].
      destruct (place_buy_order _ _ _ _) as [evs1 [e|]]; discriminate.
    + destruct os as [|o os1]; [discriminate|].
      destruct (place_buy_order _ _ _ _) as [evs1 [e|]] eqn:B; [discriminate|].
      inversion H; subst.
      exists token, o. repeat split; try reflexivity. exact B.
  - left. inversion H; subst. repeat split; reflexivity.
Qed.

(** The body when the gap to the ceiling is computed and is at most 2.1:
    the limit price becomes the ceiling price, one order of the configured
    quantity is submitted and the coroutine returns, whatever the reply. *)
Lemma iteration_final (symbol : string) (os : list order_reply)
    (st : stock_state) (p h : float) (token : string) :
  float_of_text float_of_str (ltp st) = Ok p ->
  PyFloat.trunc1 (p * 1.02)%float = Ok h ->
  PyFloat.gt (percent st) (initial_per st) = true ->
  nth_error (duplicate_order_ids st) (order_id_index st) = Some token ->
  PyFloat.le (circuit_per st - percent st) 2.1 = true ->
  let s := set_high_price (circuit_price st) (drawn token (priced p h st)) in
  iteration float_of_str symbol os st =
  Ended match os with
        | [] => mk_run Waiting s [EvOrder (order_of symbol s (applied_qnty st))]
        | o :: _ =>
            match place_buy_order symbol s (applied_qnty st) o with
            | (evs, Some e) => handled e s evs
            | (evs, None) => mk_run Returned s evs
            end
        end.
Proof.
  intros P T G N L s. unfold iteration.
  rewrite P. simpl. rewrite T. simpl. rewrite G, N. simpl. rewrite L.
  destruct os as [|o os']; [reflexivity|].
  unfold s, drawn, priced; simpl.
  destruct (place_buy_order _ _ _ _) as [evs [e|]]; reflexivity.
Qed.

(** The loop entered at a configuration goes on as the loop entered at any
    configuration it reaches. *)
Lemma active_round (symbol : string) c evs c' :
  round float_of_str symbol c evs c' ->
  active float_of_str symbol (fst (fst c)) (snd (fst c)) (snd c) =
  prepend evs
    (active float_of_str symbol (fst (fst c')) (snd (fst c')) (snd c')).
Proof.
  intros [w ws os st st1 os1 evs1 st2 evs2 I W]. simpl.
  rewrite I, W. reflexivity.
Qed.

Lemma active_reaches (symbol : string) c evs c' :
  reaches float_of_str symbol c evs c' ->
  active float_of_str symbol (fst (fst c)) (snd (fst c)) (snd c) =
  prepend evs
    (active float_of_str symbol (fst (fst c')) (snd (fst c')) (snd c')).
Proof.
  induction 1 as [c | c evs c' evs' c'' R _ IH].
  - symmetry. apply prepend_nil.
  - rewrite (active_round symbol c evs c' R), IH, prepend_app. reflexivity.
Qed.

(** C2. In every run of the loop of [detect], at the first round in which
    the remaining gap [circuit_per - percent] is computed (the trade price
    parses, the quote is above the last trigger and a token is drawn) and is
    at most 2.1, exactly one more order is submitted, at the ceiling price
    and for the configured quantity; once its reply is in, the coroutine
    has returned: the trace of the whole run is what came before, that
    order, and log records only. *)
Theorem final_order_ends_loop (symbol : string)
    (ws0 ws : list watch_reply) (os0 os : list order_reply) (o : order_reply)
    (st0 st : stock_state) (evs : list event) (p h : float) (token : string) :
  reaches float_of_str symbol (ws0, os0, st0) evs (ws, o :: os, st) ->
  float_of_text float_of_str (ltp st) = Ok p ->
  PyFloat.trunc1 (p * 1.02)%float = Ok h ->
  PyFloat.gt (percent st) (initial_per st) = true ->
  nth_error (duplicate_order_ids st) (order_id_index st) = Some token ->
  PyFloat.le (circuit_per st - percent st) 2.1 = true ->
  exists logs,
    Forall is_log logs /\
    ending_of (active float_of_str symbol ws0 os0 st0) = Returned /\
    trace_of (active float_of_str symbol ws0 os0 st0) =
      evs ++ EvOrder {| txtSecurity := symbol;
                        spnQuantity := applied_qnty st;
                        spnPrice := circuit_price st;
                        marketPrice := p;
                        duplicateOrderId := Some token |} :: logs /\
    remain_per (state_of (active float_of_str symbol ws0 os0 st0)) =
      (circuit_per st - percent st)%float.
Proof.
  intros R P T G N L.
  pose proof (active_reaches symbol _ _ _ R) as A. simpl in A. rewrite A.
  assert (I := iteration_final symbol (o :: os) st p h token P T G N L).
  cbv zeta in I.
  set (s := set_high_price (circuit_price st) (drawn token (priced p h st))) in *.
  assert (Act : active float_of_str symbol ws (o :: os) st =
                match place_buy_order symbol s (applied_qnty st) o with
                | (evs, Some e) => handled e s evs
                | (evs, None) => mk_run Returned s evs
                end).
  { destruct ws; simpl; rewrite I; reflexivity. }
  rewrite Act.
  destruct (place_buy_order symbol s (applied_qnty st) o) as [evs1 [e|]] eqn:B;
    destruct (place_buy_order_events _ _ _ _ _ _ B) as (logs & -> & Hlogs).
  - exists (logs ++ [EvLog (LogException e)]). simpl.
    repeat split; try reflexivity.
    apply Forall_app. split; [exact Hlogs | repeat constructor].
  - exists logs. simpl. repeat split; try reflexivity. exact Hlogs.
Qed.

(** ** The token cursor *)

Lemma skipn_nth_error {A : Type} (l : list A) (i : nat) (x : A) :
  nth_error l i = Some x -> skipn i l = x :: skipn (S i) l.
Proof.
  revert l; induction i as [|i IH]; intros [|y l] H; simpl in H;
    try discriminate.
  - inversion H; reflexivity.
  - simpl. rewrite (IH l H). reflexivity.
Qed.

(** A round leaves the pool as it is; it either leaves the cursor and
    submits nothing, or submits one order carrying the token under the
    cursor and moves the cursor by one. *)
Lemma round_cursor (symbol : string) c evs c' :
  round float_of_str symbol c evs c' ->
  duplicate_order_ids (snd c') = duplicate_order_ids (snd c) /\
  ((order_id_index (snd c') = order_id_index (snd c) /\ orders evs = [])
   \/
   (exists token,
      nth_error (duplicate_order_ids (snd c)) (order_id_index (snd c)) = Some token /\
      order_id_index (snd c') = S (order_id_index (snd c)) /\
      map duplicateOrderId (orders evs) = [Some token])).
Proof.
  intros [w ws os st st1 os1 evs1 st2 evs2 I W]. simpl.
  destruct (watch_stock_frame _ _ _ _ _ _ W)
    as (_ & _ & _ & _ & _ & _ & _ & Hpool & Hidx).
  destruct (watch_stock_events _ _ _ _ _ _ W) as (wl & -> & Hwl).
  destruct (logs_no_orders _ Hwl) as [Hwo _].
  rewrite Hpool, Hidx, orders_app. simpl. rewrite Hwo, app_nil_r.
  destruct (iteration_ToPoll _ _ _ _ _ _ I)
    as (p & h & _ & _ & [(_ & -> & _ & ->) | (_ & token & o & N & _ & _ & B & ->)]).
  - split; [reflexivity|]. left. split; reflexivity.
  - split; [reflexivity|]. right. exists token.
    destruct (place_buy_order_events _ _ _ _ _ _ B) as (logs & -> & Hlogs).
    destruct (logs_no_orders _ Hlogs) as [Hlo _].
    simpl. rewrite Hlo. repeat split; try reflexivity. exact N.
Qed.

Lemma reaches_cursor (symbol : string) c evs c' :
  reaches float_of_str symbol c evs c' ->
  duplicate_order_ids (snd c') = duplicate_order_ids (snd c) /\
  (order_id_index (snd c) <= order_id_index (snd c'))%nat /\
  ((order_id_index (snd c) <= List.length (duplicate_order_ids (snd c)))%nat ->
   (order_id_index (snd c') <= List.length (duplicate_order_ids (snd c)))%nat) /\
  map duplicateOrderId (orders evs) =
    map Some (firstn (order_id_index (snd c') - order_id_index (snd c))
                (skipn (order_id_index (snd c)) (duplicate_order_ids (snd c)))).
Proof.
  induction 1 as [c | c evs c' evs' c'' R _ (IHp & IHi & IHb & IHt)].
  - rewrite Nat.sub_diag. simpl. repeat split; auto.
  - destruct (round_cursor symbol c evs c' R)
      as (Hp & [(Hi & Ho) | (token & N & Hi & Ho)]).
    + rewrite Hi in IHi, IHb, IHt. rewrite Hp in IHp, IHb, IHt.
      rewrite orders_app, Ho. simpl. repeat split; assumption.
    + assert (order_id_index (snd c) < List.length (duplicate_order_ids (snd c)))%nat
        by (apply nth_error_Some; congruence).
      rewrite Hi in IHi, IHb, IHt. rewrite Hp in IHp, IHb, IHt.
      split; [exact IHp|]. split; [lia|]. split; [intros _; apply IHb; lia|].
      rewrite orders_app, map_app, Ho, IHt, (skipn_nth_error _ _ _ N).
      replace (order_id_index (snd c'') - order_id_index (snd c))%nat
        with (S (order_id_index (snd c'') - S (order_id_index (snd c))))
        by lia.
      reflexivity.
Qed.

(** C3. Along every run of the loop the pool is never changed and the
    cursor never goes past its end; the orders submitted so far carry the
    tokens of the successive positions the cursor went through, each
    position once; and a draw with the cursor at or past the end of the pool
    raises [IndexError], which the handler logs, and the coroutine returns
    without submitting anything. *)
Theorem token_cursor_within_pool (symbol : string)
    (ws0 ws : list watch_reply) (os0 os : list order_reply)
    (st0 st : stock_state) (evs : list event) :
  reaches float_of_str symbol (ws0, os0, st0) evs (ws, os, st) ->
  (order_id_index st0 <= List.length (duplicate_order_ids st0))%nat ->
  duplicate_order_ids st = duplicate_order_ids st0 /\
  (order_id_index st <= List.length (duplicate_order_ids st))%nat /\
  map duplicateOrderId (orders evs) =
    map Some (firstn (order_id_index st - order_id_index st0)
                (skipn (order_id_index st0) (duplicate_order_ids st0))) /\
  (forall p h,
      float_of_text float_of_str (ltp st) = Ok p ->
      PyFloat.trunc1 (p * 1.02)%float = Ok h ->
      PyFloat.gt (percent st) (initial_per st) = true ->
      (List.length (duplicate_order_ids st) <= order_id_index st)%nat ->
      active float_of_str symbol ws os st =
      mk_run Returned (priced p h st) [EvLog (LogException IndexError)]).
Proof.
  intros R B.
  destruct (reaches_cursor symbol _ _ _ R) as (Hp & Hi & Hb & Ht).
  simpl in *. rewrite Hp. repeat split; auto.
  intros p h P T G Hlen.
  assert (I : iteration float_of_str symbol os st =
              Ended (mk_run Returned (priced p h st)
                       [EvLog (LogException IndexError)])).
  { unfold iteration. rewrite P. simpl. rewrite T. simpl. rewrite G.
    assert (N : nth_error (duplicate_order_ids st) (order_id_index st) = None)
      by (apply nth_error_None; rewrite Hp; exact Hlen).
    rewrite N. reflexivity. }
  destruct ws; simpl; rewrite I; reflexivity.
Qed.

(** ** The last trigger *)

(** What a pass through the body leaves of the entry, however it ends. *)
Lemma iteration_frame (symbol : string) (os : list order_reply) (st : stock_state) :
  let s := match iteration float_of_str symbol os st with
           | ToPoll st' _ _ => st'
           | Ended r => state_of r
           end in
  applied_qnty s = applied_qnty st /\
  circuit_per s = circuit_per st /\
  duplicate_order_ids s = duplicate_order_ids st /\
  opening_price s = opening_price st /\
  percent s = percent st /\
  ltp s = ltp st /\
  circuit_price s = circuit_price st /\
  previous_day_closing s = previous_day_closing st.
Proof.
  unfold iteration.
  destruct (float_of_text float_of_str (ltp st)) as [p|e]; simpl;
    [|repeat split; reflexivity].
  destruct (PyFloat.trunc1 (p * 1.02)%float) as [h|e]; simpl;
    [|repeat split; reflexivity].
  destruct (PyFloat.gt (percent st) (initial_per st)); simpl;
    [|repeat split; reflexivity].
  destruct (nth_error (duplicate_order_ids st) (order_id_index st)); simpl;
    [|repeat split; reflexivity].
  destruct (PyFloat.le (circuit_per st - percent st) 2.1); simpl;
    (destruct os as [|o os']; simpl; [repeat split; reflexivity|]);
    destruct (place_buy_order _ _ _ _) as [evs [e|]]; simpl;
    repeat split; reflexivity.
Qed.

(** A pass that ends the coroutine leaves the last trigger as it was. *)
Lemma iteration_Ended_trigger (symbol : string) (os : list order_reply)
    (st : stock_state) (r : run) :
  iteration float_of_str symbol os st = Ended r ->
  initial_per (state_of r) = initial_per st.
Proof.
  unfold iteration.
  destruct (float_of_text float_of_str (ltp st)) as [p|e]; simpl;
    [|intros H; inversion H; reflexivity].
  destruct (PyFloat.trunc1 (p * 1.02)%float) as [h|e]; simpl;
    [|intros H; inversion H; reflexivity].
  destruct (PyFloat.gt (percent st) (initial_per st)); simpl;
    [|discriminate].
  destruct (nth_error (duplicate_order_ids st) (order_id_index st)); simpl;
    [|intros H; inversion H; reflexivity].
  destruct (PyFloat.le (circuit_per st - percent st) 2.1); simpl;
    (destruct os as [|o os']; simpl; [intros H; inversion H; reflexivity|]);
    destruct (place_buy_order _ _ _ _) as [evs [e|]]; simpl;
    intros H; inversion H; reflexivity.
Qed.

(** A round either finds the quote not above the last trigger, submits
    nothing and leaves the trigger, or submits one order and moves the
    trigger up to the quote's percent change. *)
Lemma round_trigger (symbol : string) c evs c' :
  round float_of_str symbol c evs c' ->
  (PyFloat.gt (percent (snd c)) (initial_per (snd c)) = false /\
   initial_per (snd c') = initial_per (snd c) /\
   snd (fst c') = snd (fst c) /\
   orders evs = [])
  \/
  (PyFloat.gt (percent (snd c)) (initial_per (snd c)) = true /\
   initial_per (snd c') = percent (snd c) /\
   List.length (orders evs) = 1%nat).
Proof.
  intros [w ws os st st1 os1 evs1 st2 evs2 I W]. simpl.
  destruct (watch_stock_frame _ _ _ _ _ _ W) as (_ & _ & _ & Hini & _).
  destruct (watch_stock_events _ _ _ _ _ _ W) as (wl & -> & Hwl).
  destruct (logs_no_orders _ Hwl) as [Hwo _].
  rewrite Hini, orders_app. simpl. rewrite Hwo, app_nil_r.
  destruct (iteration_ToPoll _ _ _ _ _ _ I)
    as (p & h & _ & _ & [(G & -> & -> & ->) | (G & token & o & _ & _ & _ & B & ->)]).
  - left. repeat split; auto.
  - right. destruct (place_buy_order_events _ _ _ _ _ _ B) as (logs & -> & Hlogs).
    destruct (logs_no_orders _ Hlogs) as [Hlo _].
    simpl. rewrite Hlo. repeat split; auto.
Qed.

(** C5. Over a run of the loop the last trigger [initial_per] only moves
    up: its value at any round is reached from its value at an earlier one
    by a chain of strict increases; a round reassigns it only to the
    percent change of the quote, and only when that is strictly greater
    than its current value; the pass that ends the coroutine leaves it; and
    so it is for a pass followed by a poll that fails, which is the end of
    the loop too. *)
Theorem last_trigger_only_rises (symbol : string)
    (ws0 ws : list watch_reply) (os0 os : list order_reply)
    (st0 st : stock_state) (evs : list event) :
  reaches float_of_str symbol (ws0, os0, st0) evs (ws, os, st) ->
  clos_refl_trans float (fun a b => PyFloat.gt b a = true)
    (initial_per st0) (initial_per st) /\
  (forall evs' ws' os' st',
      round float_of_str symbol (ws, os, st) evs' (ws', os', st') ->
      initial_per st' = initial_per st \/
      (initial_per st' = percent st /\
       PyFloat.gt (percent st) (initial_per st) = true)) /\
  (forall r,
      iteration float_of_str symbol os st = Ended r ->
      initial_per (state_of r) = initial_per st) /\
  (forall st1 os1 evs1 w st2 evs2 e,
      iteration float_of_str symbol os st = ToPoll st1 os1 evs1 ->
      watch_stock float_of_str symbol w st1 = (st2, evs2, e) ->
      initial_per st2 = initial_per st \/
      (initial_per st2 = percent st /\
       PyFloat.gt (percent st) (initial_per st) = true)).
Proof.
  intros R. split; [|split; [|split]].
  - change (clos_refl_trans float (fun a b => PyFloat.gt b a = true)
              (initial_per (snd (ws0, os0, st0))) (initial_per (snd (ws, os, st)))).
    induction R as [c | c evs c' evs' c'' Rd _ IH].
    + apply rt_refl.
    + apply rt_trans with (y := initial_per (snd c')); [|exact IH].
      destruct (round_trigger symbol c evs c' Rd)
        as [(_ & E & _) | (G & E & _)]; rewrite E.
      * apply rt_refl.
      * apply rt_step. exact G.
  - intros evs' ws' os' st' Rd.
    destruct (round_trigger symbol _ _ _ Rd) as [(_ & E & _) | (G & E & _)];
      simpl in *; [left | right]; auto.
  - intros r. apply iteration_Ended_trigger.
  - intros st1 os1 evs1 w st2 evs2 e I W.
    destruct (watch_stock_frame _ _ _ _ _ _ W) as (_ & _ & _ & Hini & _).
    rewrite Hini.
    destruct (iteration_ToPoll _ _ _ _ _ _ I)
      as (p & h & _ & _ & [(_ & -> & _) | (G & token & o & _ & _ & _ & _ & ->)]).
    + left. reflexivity.
    + right. split; [reflexivity | exact G].
Qed.

(** ** Quotes that are not above the last trigger *)

Lemma iteration_not_eligible (symbol : string) (os : list order_reply)
    (st : stock_state) :
  PyFloat.gt (percent st) (initial_per st) = false ->
  orders (pass_events (iteration float_of_str symbol os st)) = [] /\
  match iteration float_of_str symbol os st with
  | ToPoll st' os' evs => os' = os /\ evs = [] /\ same_watch_state st st'
  | Ended r => ending_of r = Returned /\ same_watch_state st (state_of r)
  end.
Proof.
  intros G. unfold iteration, same_watch_state.
  destruct (float_of_text float_of_str (ltp st)) as [p|e]; simpl;
    [|repeat split; reflexivity].
  destruct (PyFloat.trunc1 (p * 1.02)%float) as [h|e]; simpl;
    [|repeat split; reflexivity].
  rewrite G. simpl. repeat split; reflexivity.
Qed.

(** C8. The test is a strict [>]: in a round whose quote has a percent
    change equal to or below the last trigger, the body submits no order and
    writes two keys of the entry only, the parsed trade price [ltp_p] and the
    limit price [high_price], which it recomputes from the trade price of
    the quote before the test (lines 230-231); every other key is left, and
    the round as a whole, poll included, changes nothing else than the quote
    and these two; and when a poll brings the same percent change as the
    quote before it, the round of the earlier quote submitted at most one
    order and the body run on the later one submits none. *)
Theorem stale_quote_submits_nothing (symbol : string) :
  (forall os st,
      (percent st =? initial_per st)%float = true \/
      (percent st <? initial_per st)%float = true ->
      orders (pass_events (iteration float_of_str symbol os st)) = [] /\
      match iteration float_of_str symbol os st with
      | ToPoll st' os' evs =>
          os' = os /\ evs = [] /\ same_watch_state st st' /\
          exists p h,
            float_of_text float_of_str (ltp st) = Ok p /\
            PyFloat.trunc1 (p * 1.02)%float = Ok h /\
            st' = priced p h st
      | Ended r => ending_of r = Returned /\ same_watch_state st (state_of r)
      end /\
      (forall ws evs ws' os' st',
          round float_of_str symbol (ws, os, st) evs (ws', os', st') ->
          os' = os /\ orders evs = [] /\ same_watch_state st st'))
  /\
  (forall ws os st evs ws' os' st',
      round float_of_str symbol (ws, os, st) evs (ws', os', st') ->
      percent st' = percent st ->
      (List.length (orders evs) <= 1)%nat /\
      orders (pass_events (iteration float_of_str symbol os' st')) = []).
Proof.
  split.
  - intros os st H.
    assert (G : PyFloat.gt (percent st) (initial_per st) = false)
      by (destruct H; [apply eq_not_gt | apply lt_not_gt]; assumption).
    destruct (iteration_not_eligible symbol os st G) as [Ho Hm].
    split; [exact Ho|]. split.
    { destruct (iteration float_of_str symbol os st) as [s1 os1 evs1|r] eqn:I;
        [|exact Hm].
      destruct Hm as (Hos & Hevs & Hs).
      split; [exact Hos|]. split; [exact Hevs|]. split; [exact Hs|].
      destruct (iteration_ToPoll _ _ _ _ _ _ I)
        as (p & h & P & T & [(_ & E & _) | (G' & _)]); [|congruence].
      exists p, h. auto. }
    intros ws evs ws' os' st' Rd.
    destruct (round_trigger symbol _ _ _ Rd) as [(_ & _ & Hos & Hevs) | (G' & _)];
      simpl in *; [|congruence].
    split; [exact Hos|]. split; [exact Hevs|].
    inversion Rd as [w ws1 os1 s s1 os2 evs1 s2 evs2 I W]; subst.
    rewrite I in Hm. destruct Hm as (_ & _ & Hs).
    destruct (watch_stock_frame _ _ _ _ _ _ W) as (Ha & _ & _ & Hi & Hc & Hr & Hd & Hp & Hx).
    unfold same_watch_state in *.
    destruct Hs as (Ha' & Hi' & Hc' & Hr' & Hd' & Hp' & Hx').
    repeat split; congruence.
  - intros ws os st evs ws' os' st' Rd E.
    destruct (round_trigger symbol _ _ _ Rd) as [(G & Hi & _ & Hevs) | (G & Hi & Hevs)];
      simpl in *.
    + split; [rewrite Hevs; simpl; lia|].
      apply iteration_not_eligible. rewrite E, Hi. exact G.
    + split; [lia|].
      apply iteration_not_eligible. rewrite E, Hi. apply gt_irrefl.
Qed.

(** ** Entering the loop *)

Lemma same_beyond_quote_refl (st : stock_state) : same_beyond_quote st st.
Proof. unfold same_beyond_quote. repeat split; reflexivity. Qed.

Lemma same_beyond_quote_trans (a b c : stock_state) :
  same_beyond_quote a b -> same_beyond_quote b c -> same_beyond_quote a c.
Proof.
  unfold same_beyond_quote.
  intros (A1 & A2 & A3 & A4 & A5 & A6 & A7 & A8 & A9)
         (B1 & B2 & B3 & B4 & B5 & B6 & B7 & B8 & B9).
  repeat split; congruence.
Qed.




(** ** The ceiling band *)

Lemma round_circuit_per (symbol : string) c evs c' :
  round float_of_str symbol c evs c' ->
  circuit_per (snd c') = circuit_per (snd c).
Proof.
  intros [w ws os st st1 os1 evs1 st2 evs2 I W]. simpl.
  destruct (watch_stock_frame _ _ _ _ _ _ W) as (_ & _ & _ & _ & Hc & _).
  pose proof (iteration_frame symbol os st) as F. rewrite I in F.
  destruct F as (_ & Hc' & _). congruence.
Qed.

Lemma reaches_circuit_per (symbol : string) c evs c' :
  reaches float_of_str symbol c evs c' ->
  circuit_per (snd c') = circuit_per (snd c).
Proof.
  induction 1 as [c | c evs c' evs' c'' R _ IH]; [reflexivity|].
  rewrite IH. exact (round_circuit_per symbol _ _ _ R).
Qed.

Lemma active_circuit_per (symbol : string) (ws : list watch_reply)
    (os : list order_reply) (st : stock_state) :
  circuit_per (state_of (active float_of_str symbol ws os st)) = circuit_per st.
Proof.
  revert os st. induction ws as [|w ws IH]; intros os st; simpl;
    pose proof (iteration_frame symbol os st) as F;
    destruct (iteration float_of_str symbol os st) as [s1 os1 evs1|r];
    destruct F as (_ & Hc & _); try exact Hc.
  destruct (watch_stock float_of_str symbol w s1) as [[s2 evs2] [e|]] eqn:W;
    destruct (watch_stock_frame _ _ _ _ _ _ W) as (_ & _ & _ & _ & Hc2 & _);
    simpl; [congruence|].
  rewrite IH. congruence.
Qed.

(** C6. [detect] computes [circuit_per] once, on leaving its first loop,
    as [int(((circuit_price - previous_day_closing) * 100 /
    previous_day_closing) * 100) / 100], and the loop that follows never
    assigns it: it has that value at every round and when the coroutine
    stops.  [int] cuts the fraction off, toward zero, whatever it is (it
    does not round to the nearest): a ceiling of 332.9 on a close of 300, a
    band of 10.9666..., gives 10.96.  A close of 100.0 with a ceiling of
    110.0 gives exactly 10.0. *)
Theorem ceiling_band_truncated_once (symbol : string)
    (ws ws' : list watch_reply) (os : list order_reply)
    (st st' : stock_state) (evs : list event) (c : float) :
  await_open float_of_str symbol ws st = Opened ws' st' evs ->
  circuit_per_of (circuit_price st') (previous_day_closing st') = Ok c ->
  detect float_of_str symbol ws os st =
    prepend evs (active float_of_str symbol ws' os (set_circuit_per c st')) /\
  (forall evs1 ws1 os1 st1,
      reaches float_of_str symbol (ws', os, set_circuit_per c st') evs1
        (ws1, os1, st1) ->
      circuit_per st1 = c) /\
  circuit_per (state_of (detect float_of_str symbol ws os st)) = c /\
  (forall x n,
      PyFloat.float_div ((circuit_price st' - previous_day_closing st') * 100)%float
        (previous_day_closing st') = Ok x ->
      PyFloat.int_of_float (x * 100)%float = Ok n ->
      PyFloat.truncation_of (x * 100)%float n /\
      PyFloat.int_truediv n 100 = Ok c) /\
  circuit_per_of 110 100 = Ok 10%float /\
  circuit_per_of 332.9 300 = Ok 10.96%float.
Proof.
  intros A C.
  assert (D : detect float_of_str symbol ws os st =
              prepend evs (active float_of_str symbol ws' os (set_circuit_per c st')))
    by (unfold detect; rewrite A, C; reflexivity).
  split; [exact D|]. split; [|split; [|split; [|split]]].
  - intros evs1 ws1 os1 st1 R.
    exact (reaches_circuit_per symbol _ _ _ R).
  - rewrite D. simpl. apply active_circuit_per.
  - intros x n X N. split; [apply int_of_float_truncates; exact N|].
    unfold circuit_per_of in C. rewrite X in C. simpl in C.
    unfold PyFloat.trunc2 in C. rewrite N in C. exact C.
  - vm_compute. reflexivity.
  - vm_compute. reflexivity.
Qed.

End BuyerFacts.

(** ** The market gate *)

Section GateFacts.

Variable float_of_str : string -> option float.




End GateFacts.

(** ** The token pool *)

Lemma get_characters (s : string) (n : nat) (c : ascii) :
  String.get n s = Some c -> In c (characters s).
Proof.
  revert n. induction s as [|a s IH]; intros [|n] H; simpl in *;
    try discriminate.
  - inversion H. left. reflexivity.
  - right. exact (IH n H).
Qed.

Lemma get_below_length (s : string) (n : nat) :
  (n < String.length s)%nat -> exists c, String.get n s = Some c.
Proof.
  revert n. induction s as [|a s IH]; intros [|n] H; simpl in *; try lia.
  - exists a. reflexivity.
  - apply IH. lia.
Qed.

(** [k] choices from a population that is not empty make a text of [k]
    characters, each of the population. *)
Lemma choices_well_formed (rng : nat -> nat) (population : string) (k pos : nat) :
  String.length population <> 0%nat ->
  String.length (choices rng population k pos) = k /\
  Forall (fun c => In c (characters population))
    (characters (choices rng population k pos)).
Proof.
  intros Hne. revert pos. induction k as [|k IH]; intros pos; simpl.
  - split; [reflexivity | constructor].
  - destruct (get_below_length population (rng pos mod String.length population))
      as [c Hc].
    { apply Nat.mod_upper_bound. exact Hne. }
    rewrite Hc. simpl. destruct (IH (S pos)) as [Hl Hf].
    split; [rewrite Hl; reflexivity|].
    constructor; [exact (get_characters _ _ _ Hc) | exact Hf].
Qed.

Lemma generated_token_well_formed (rng : nat -> nat) (pos : nat) :
  well_formed_token (generate_duplicate_order_id rng pos).
Proof.
  apply choices_well_formed. vm_compute. discriminate.
Qed.

Lemma fill_pool_appends (rng : nat -> nat) (n pos : nat) (st : stock_state) :
  exists tokens,
    duplicate_order_ids (fst (fill_pool rng n pos st)) =
      duplicate_order_ids st ++ tokens /\
    List.length tokens = n /\
    Forall well_formed_token tokens.
Proof.
  revert pos st. induction n as [|n IH]; intros pos st; simpl.
  - exists []. rewrite app_nil_r. repeat split; constructor.
  - destruct (IH (pos + 10)%nat
                (set_duplicate_order_ids
                   (duplicate_order_ids st ++ [generate_duplicate_order_id rng pos]) st))
      as (tokens & Hp & Hl & Hf).
    exists (generate_duplicate_order_id rng pos :: tokens).
    rewrite Hp. simpl. rewrite <- app_assoc. simpl.
    split; [reflexivity|]. split; [rewrite Hl; reflexivity|].
    constructor; [apply generated_token_well_formed | exact Hf].
Qed.

(** C4 (amended). [setup] appends to the pool of every symbol 20 tokens of
    10 characters each, every character drawn from the trimmed alphabet: the
    digits 1 to 9 and the letters, without the last two characters of
    [chars], [Y] and [Z], and without the digit 0.  (Nothing makes the tokens
    of a pool differ from one another.) *)
Theorem pool_tokens_well_formed (rng : nat -> nat) (pos : nat)
    (states : list (string * stock_state)) :
  Forall2 (fun e e' =>
             fst e' = fst e /\
             exists tokens,
               duplicate_order_ids (snd e') = duplicate_order_ids (snd e) ++ tokens /\
               List.length tokens = 20%nat /\
               Forall well_formed_token tokens)
    states (fill_pools rng pos states) /\
  Forall (fun c => alphanumeric c = true) (characters trimmed_chars) /\
  characters chars = characters trimmed_chars ++ ["Y"; "Z"]%char /\
  ~ In "Y"%char (characters trimmed_chars) /\
  ~ In "Z"%char (characters trimmed_chars) /\
  ~ In "0"%char (characters trimmed_chars).
Proof.
  split.
  - revert pos. induction states as [|[symbol st] states IH]; intros pos;
      cbn [fill_pools].
    + constructor.
    + pose proof (fill_pool_appends rng 20 pos st) as A.
      destruct (fill_pool rng 20 pos st) as [st' pos'].
      constructor; [|apply IH].
      split; [reflexivity | exact A].
  - split.
    { apply Forall_forall. apply forallb_forall. vm_compute. reflexivity. }
    split; [reflexivity|].
    repeat split; intros H; vm_compute in H;
      repeat (destruct H as [H|H]; [discriminate|]); exact H.
Qed.

(** ** The orchestrator *)

Lemma closes_app (tr tr' : list event) : closes (tr ++ tr') = (closes tr + closes tr')%nat.
Proof.
  induction tr as [|ev tr IH]; simpl; [reflexivity|].
  destruct ev; simpl; rewrite IH; reflexivity.
Qed.

Lemma logs_no_close (tr : list event) : Forall is_log tr -> closes tr = 0%nat.
Proof.
  induction 1 as [|ev tr Hev _ IH]; simpl; [reflexivity|].
  destruct ev; simpl in Hev; try contradiction. exact IH.
Qed.

Section RunnerFacts.

Variable float_of_str : string -> option float.

Lemma watch_stock_no_close (symbol : string) (w : watch_reply)
    (st st' : stock_state) (evs : list event) (e : option exn) :
  watch_stock float_of_str symbol w st = (st', evs, e) -> closes evs = 0%nat.
Proof.
  intros W. destruct (watch_stock_events _ _ _ _ _ _ _ W) as (logs & -> & H).
  simpl. apply logs_no_close. exact H.
Qed.

Lemma place_buy_order_no_close (symbol : string) (st : stock_state)
    (quantity : Z) (o : order_reply) (evs : list event) (e : option exn) :
  place_buy_order symbol st quantity o = (evs, e) -> closes evs = 0%nat.
Proof.
  intros B. destruct (place_buy_order_events _ _ _ _ _ _ B) as (logs & -> & H).
  simpl. apply logs_no_close. exact H.
Qed.

Lemma iteration_no_close (symbol : string) (os : list order_reply)
    (st : stock_state) :
  closes (pass_events (iteration float_of_str symbol os st)) = 0%nat.
Proof.
  unfold iteration.
  destruct (float_of_text float_of_str (ltp st)) as [p|e]; simpl;
    [|reflexivity].
  destruct (PyFloat.trunc1 (p * 1.02)%float) as [h|e]; simpl; [|reflexivity].
  destruct (PyFloat.gt (percent st) (initial_per st)); simpl; [|reflexivity].
  destruct (nth_error (duplicate_order_ids st) (order_id_index st)); simpl;
    [|reflexivity].
  destruct (PyFloat.le (circuit_per st - percent st) 2.1); simpl;
    (destruct os as [|o os']; simpl; [reflexivity|]);
    destruct (place_buy_order _ _ _ _) as [evs [e|]] eqn:B; simpl;
    rewrite ?closes_app, (place_buy_order_no_close _ _ _ _ _ _ B);
    reflexivity.
Qed.

Lemma active_no_close (symbol : string) (ws : list watch_reply)
    (os : list order_reply) (st : stock_state) :
  closes (trace_of (active float_of_str symbol ws os st)) = 0%nat.
Proof.
  revert os st. induction ws as [|w ws IH]; intros os st; simpl;
    pose proof (iteration_no_close symbol os st) as I;
    destruct (iteration float_of_str symbol os st) as [s1 os1 evs1|r];
    simpl in I; try exact I.
  - simpl. rewrite closes_app, I. reflexivity.
  - destruct (watch_stock float_of_str symbol w s1) as [[s2 evs2] [e|]] eqn:W;
      simpl; rewrite !closes_app, I, (watch_stock_no_close _ _ _ _ _ _ W);
      [reflexivity|].
    rewrite IH. reflexivity.
Qed.

Lemma await_open_no_close (symbol : string) (ws : list watch_reply)
    (st : stock_state) :
  match await_open float_of_str symbol ws st with
  | Opened _ _ evs => closes evs = 0%nat
  | NotOpened r => closes (trace_of r) = 0%nat
  end.
Proof.
  revert st. induction ws as [|w ws IH]; intros st; simpl;
    destruct (truthy (opening_price st)); try reflexivity.
  destruct (watch_stock float_of_str symbol w st) as [[s1 evs1] [e|]] eqn:W;
    pose proof (watch_stock_no_close _ _ _ _ _ _ W) as Hw; [exact Hw|].
  specialize (IH s1).
  destruct (await_open float_of_str symbol ws s1) as [ws2 s2 evs2|r]; simpl;
    rewrite closes_app, Hw, IH; reflexivity.
Qed.

Lemma detect_no_close (symbol : string) (ws : list watch_reply)
    (os : list order_reply) (st : stock_state) :
  closes (trace_of (detect float_of_str symbol ws os st)) = 0%nat.
Proof.
  unfold detect. pose proof (await_open_no_close symbol ws st) as A.
  destruct (await_open float_of_str symbol ws st) as [ws' st' evs|r];
    [|exact A].
  destruct (circuit_per_of _ _); simpl; [|exact A].
  rewrite closes_app, A, active_no_close. reflexivity.
Qed.

Lemma gate_no_close (demo : string) (ticks : list (Z * status_reply))
    (ws : list watch_reply) (st : stock_state) :
  closes (trace_of (fst (wait_market_open float_of_str demo ticks ws st))) = 0%nat.
Proof.
  revert ws st. induction ticks as [|[hour r] ticks IH]; intros ws st; simpl;
    [reflexivity|].
  assert (M : closes (snd (market_status r)) = 0%nat).
  { unfold market_status. destruct (ms_status r =? 200); [|reflexivity].
    destruct (ms_payload r); reflexivity. }
  destruct (market_status r) as [status evs]. simpl in M.
  destruct (gate_open hour status); [exact M|].
  destruct ws as [|w ws']; simpl.
  - rewrite closes_app, M. reflexivity.
  - destruct (watch_stock float_of_str demo w st) as [[st' evs'] [e|]] eqn:W;
      pose proof (watch_stock_no_close _ _ _ _ _ _ W) as Hw; simpl.
    + rewrite closes_app, M, Hw. reflexivity.
    + specialize (IH ws' st').
      destruct (wait_market_open float_of_str demo ticks ws' st') as [g rest].
      simpl in *. rewrite !closes_app, M, Hw, IH. reflexivity.
Qed.

Lemma tasks_no_close (w : world) (demo : string) (left : list watch_reply)
    (states : list (string * stock_state)) :
  closes (List.concat (map trace_of (map (task float_of_str w demo left) states)))
  = 0%nat.
Proof.
  induction states as [|entry states IH]; simpl; [reflexivity|].
  rewrite closes_app, IH. unfold task. rewrite detect_no_close. reflexivity.
Qed.

Lemma login_no_close (r : login_reply) : closes (fst (login r)) = 0%nat.
Proof.
  unfold login. destruct (l_status r =? 200); [|reflexivity].
  destruct (l_data r) as [d|]; [|reflexivity].
  destruct (l_code d) as [c|]; [|reflexivity].
  destruct (eq_str c "0"); [|reflexivity].
  destruct (l_watchID d), (l_broker_code d); reflexivity.
Qed.

Lemma fetch_no_close (r : details_reply) :
  closes (fst (fetch_user_details r)) = 0%nat.
Proof.
  unfold fetch_user_details. destruct (d_status r =? 200); [|reflexivity].
  destruct (d_user r); reflexivity.
Qed.

(** C9 (amended). [runner] closes the session as its last step, and only
    there: a run that returns has closed the session exactly once, at its
    very end; a run that ends with an exception of [setup], [login],
    [fetch_user_details] or [wait_market_open], or that is still waiting,
    has not closed it.  Once these four have completed, what the
    [detect] tasks return or raise does not matter: as soon as none of them
    is waiting any more, the run returns, session closed. *)
Theorem session_closed_when_run_returns (w : world) (b : bot) :
  match ended (runner float_of_str w b) with
  | Returned =>
      exists tr,
        events (runner float_of_str w b) = tr ++ [EvClose] /\
        closes tr = 0%nat /\
        session (bot_of (runner float_of_str w b)) = false
  | Raised _ | Waiting =>
      closes (events (runner float_of_str w b)) = 0%nat /\
      session (bot_of (runner float_of_str w b)) = true
  end /\
  (forall ck st g left,
      get_cookies (cookies_in w) = Ok ck ->
      snd (login (login_in w)) = None ->
      snd (fetch_user_details (details_in w)) = None ->
      dict_get (demo_symbol b) (fill_pools (rng w) 0 (stock_states b)) = Some st ->
      wait_market_open float_of_str (demo_symbol b) (ticks_in w)
        (watch_in w (demo_symbol b)) st = (g, left) ->
      ending_of g = Returned ->
      existsb is_waiting
        (map (task float_of_str w (demo_symbol b) left)
           (dict_set (demo_symbol b) (state_of g)
              (fill_pools (rng w) 0 (stock_states b)))) = false ->
      ended (runner float_of_str w b) = Returned).
Proof.
  split.
  - unfold runner.
    destruct (get_cookies (cookies_in w)) as [ck|e]; simpl;
      [|split; reflexivity].
    pose proof (login_no_close (login_in w)) as L.
    destruct (login (login_in w)) as [evs1 [e|]]; simpl in *;
      [split; [exact L | reflexivity]|].
    pose proof (fetch_no_close (details_in w)) as F.
    destruct (fetch_user_details (details_in w)) as [evs2 [e|]]; simpl in *;
      [split; [rewrite closes_app, L, F; reflexivity | reflexivity]|].
    destruct (dict_get (demo_symbol b) (fill_pools (rng w) 0 (stock_states b)))
      as [st|]; simpl;
      [|split; [rewrite closes_app, L, F; reflexivity | reflexivity]].
    pose proof (gate_no_close (demo_symbol b) (ticks_in w)
                  (watch_in w (demo_symbol b)) st) as G.
    destruct (wait_market_open float_of_str (demo_symbol b) (ticks_in w)
                (watch_in w (demo_symbol b)) st) as [g left].
    simpl in G.
    destruct (ending_of g); simpl;
      try (split; [rewrite !closes_app, L, F, G; reflexivity | reflexivity]).
    match goal with
    | |- context [existsb is_waiting ?runs] => destruct (existsb is_waiting runs)
    end; simpl.
    + split; [|reflexivity].
      rewrite !closes_app, L, F, G, tasks_no_close. reflexivity.
    + match goal with
      | |- exists tr, EvCookies :: ?x ++ [EvClose] = _ /\ _ =>
          exists (EvCookies :: x)
      end.
      split; [reflexivity|]. split; [|reflexivity].
      simpl. rewrite !closes_app, L, F, G, tasks_no_close. reflexivity.
  - intros ck st g left C L F D G R T. unfold runner.
    rewrite C. destruct (login (login_in w)) as [evs1 o1]. simpl in L. subst o1.
    destruct (fetch_user_details (details_in w)) as [evs2 o2]. simpl in F.
    subst o2. simpl. rewrite D, G, R. simpl. rewrite T. reflexivity.
Qed.

End RunnerFacts.

(** ** The session of the examples *)

Lemma one_round_round (float_of_str : string -> option float) (symbol : string)
    c evs c' :
  one_round float_of_str symbol c = Some (evs, c') ->
  round float_of_str symbol c evs c'.
Proof.
  destruct c as [[[|w ws] os] st]; simpl; [discriminate|].
  destruct (iteration float_of_str symbol os st) as [st1 os1 evs1|r] eqn:I;
    [|discriminate].
  destruct (watch_stock float_of_str symbol w st1) as [[st2 evs2] [e|]] eqn:W;
    [discriminate|].
  intros H; inversion H; subst. exact (round_intro _ _ _ _ _ _ _ _ _ _ _ I W).
Qed.

Lemma advance_reaches (float_of_str : string -> option float) (symbol : string)
    (n : nat) c evs c' :
  advance float_of_str symbol n c = Some (evs, c') ->
  reaches float_of_str symbol c evs c'.
Proof.
  revert c evs c'. induction n as [|n IH]; intros c evs c'; simpl.
  - intros H; inversion H; subst. apply reaches_refl.
  - destruct (one_round float_of_str symbol c) as [[evs1 c1]|] eqn:R;
      [|discriminate].
    destruct (advance float_of_str symbol n c1) as [[evs2 c2]|] eqn:A;
      [|discriminate].
    intros H; inversion H; subst.
    exact (reaches_step _ _ _ _ _ _ _ (one_round_round _ _ _ _ _ R) (IH _ _ _ A)).
Qed.

(** [the_bot] is the bot [__init__] builds for the two symbols. *)
Lemma the_bot_constructed :
  new_bot AsciiText.upper [("jhapa", 300); ("sagar", 350)] = Ok Example.the_bot.
Proof. reflexivity. Qed.



(** The second quote of the session, 7.95, leaves a gap of 2.05 to the
    ceiling band of 10: the order for 300 at 110, and the loop is over. *)
Lemma final_order_witness :
  exists logs,
    Forall is_log logs /\
    ending_of (active Decimal.float_of_str "JHAPA" [Example.quote "1,003" "7.95"]
                 [Example.accepted; Example.accepted] Example.head_1) = Returned /\
    trace_of (active Decimal.float_of_str "JHAPA" [Example.quote "1,003" "7.95"]
                [Example.accepted; Example.accepted] Example.head_1) =
      Example.events_1 ++
      EvOrder {| txtSecurity := "JHAPA";
                 spnQuantity := applied_qnty Example.head_2;
                 spnPrice := circuit_price Example.head_2;
                 marketPrice := 1003;
                 duplicateOrderId := Some "bcdefghijk" |} :: logs /\
    remain_per (state_of (active Decimal.float_of_str "JHAPA"
                            [Example.quote "1,003" "7.95"]
                            [Example.accepted; Example.accepted] Example.head_1)) =
      (circuit_per Example.head_2 - percent Example.head_2)%float.
Proof.
  apply (final_order_ends_loop Decimal.float_of_str "JHAPA"
           [Example.quote "1,003" "7.95"] [] [Example.accepted; Example.accepted]
           [] Example.accepted Example.head_1 Example.head_2 Example.events_1
           1003%float 1023%float "bcdefghijk").
  - apply advance_reaches with (n := 1%nat). vm_compute. reflexivity.
  - vm_compute. reflexivity.
  - vm_compute. reflexivity.
  - vm_compute. reflexivity.
  - vm_compute. reflexivity.
  - vm_compute. reflexivity.
Defined.

(** Twenty probing orders use the twenty tokens of the pool, in order; the
    twenty-first draw raises [IndexError] and ends the loop. *)
Lemma token_cursor_witness :
  order_id_index Example.head_20 = 20%nat /\
  map duplicateOrderId (orders Example.events_20) =
    map Some (duplicate_order_ids Example.entry) /\
  active Decimal.float_of_str "JHAPA" [] [] Example.head_20 =
    mk_run Returned (priced 1000 1020 Example.head_20)
      [EvLog (LogException IndexError)].
Proof.
  destruct (token_cursor_within_pool Decimal.float_of_str "JHAPA"
              Example.ladder [] (repeat Example.accepted 20) []
              Example.head_0 Example.head_20 Example.events_20)
    as (_ & _ & Ht & Hx).
  - apply advance_reaches with (n := 20%nat). vm_compute. reflexivity.
  - vm_compute. lia.
  - split; [reflexivity|]. split; [rewrite Ht; reflexivity|].
    apply Hx; vm_compute; reflexivity.
Defined.

(** Over the twenty rounds of the climbing session the last trigger goes
    from -2 to 2.0 by strict increases. *)
Lemma last_trigger_witness :
  clos_refl_trans float (fun a b => PyFloat.gt b a = true)
    (initial_per Example.head_0) (initial_per Example.head_20).
Proof.
  apply (last_trigger_only_rises Decimal.float_of_str "JHAPA"
           Example.ladder [] (repeat Example.accepted 20) []
           Example.head_0 Example.head_20 Example.events_20).
  apply advance_reaches with (n := 20%nat). vm_compute. reflexivity.
Defined.

(** A poll that repeats the percent change of the quote that triggered the
    last order: nothing is submitted, and the pass leaves the entry with the
    trade price 1002.0 and the limit price 1022.0 of that quote. *)
Lemma stale_quote_witness :
  percent Example.stale = initial_per Example.stale /\
  orders (pass_events (iteration Decimal.float_of_str "JHAPA" [Example.accepted]
                         Example.stale)) = [] /\
  iteration Decimal.float_of_str "JHAPA" [Example.accepted] Example.stale =
    ToPoll (priced 1002 1022 Example.stale) [Example.accepted] [].
Proof.
  split; [reflexivity|].
  destruct (proj1 (stale_quote_submits_nothing Decimal.float_of_str "JHAPA")
              [Example.accepted] Example.stale) as (Ho & _ & _).
  - left. vm_compute. reflexivity.
  - split; [exact Ho|]. vm_compute. reflexivity.
Defined.

(** C8, as stated, fails: a pass that submits nothing does write the entry
    beyond the quote.  After a probing order at a trade price of 1,002 the
    poll brings a quote of 1,050 with the same percent change, 1.0: the next
    pass submits no order, and moves [ltp_p] from 1002.0 to 1050.0 and
    [high_price] from 1022.0 to 1071.0, two keys that no poll writes. *)
Lemma stale_pass_rewrites_prices :
  reaches Decimal.float_of_str "JHAPA"
    ([Example.quote "1,050" "1.0"], [Example.accepted], Example.head_1)
    Example.events_repriced ([], [], Example.repriced) /\
  (percent Example.repriced =? initial_per Example.repriced)%float = true /\
  ltp_p Example.repriced = 1002%float /\
  high_price Example.repriced = 1022%float /\
  iteration Decimal.float_of_str "JHAPA" [] Example.repriced =
    ToPoll (priced 1050 1071 Example.repriced) [] [] /\
  ~ same_beyond_quote Example.repriced (priced 1050 1071 Example.repriced).
Proof.
  split; [apply advance_reaches with (n := 1%nat); vm_compute; reflexivity|].
  split; [vm_compute; reflexivity|].
  split; [reflexivity|]. split; [reflexivity|].
  split; [vm_compute; reflexivity|].
  intros (_ & H & _).
  apply (f_equal (fun x => (x =? 1002)%float)) in H.
  vm_compute in H. discriminate.
Qed.

(** The session of the examples: the band between a close of 100.0 and a
    ceiling of 110.0 is 10.0, at the head of the loop and at its end. *)
Lemma ceiling_band_witness :
  circuit_per (state_of (detect Decimal.float_of_str "JHAPA"
                           [Example.quote "1,002" "1.0"] [Example.accepted]
                           Example.entry)) = 10%float.
Proof.
  apply (ceiling_band_truncated_once Decimal.float_of_str "JHAPA"
           [Example.quote "1,002" "1.0"] [] [Example.accepted] Example.entry
           (fst (fst (watch_stock Decimal.float_of_str "JHAPA"
                        (Example.quote "1,002" "1.0") Example.entry)))
           [EvWatch "JHAPA"] 10%float).
  - vm_compute. reflexivity.
  - vm_compute. reflexivity.
Defined.



(** C4, as stated, fails: nothing keeps the tokens of a pool apart.  When
    every draw of the random sequence is the same, the twenty tokens are the
    same token. *)
Lemma constant_draws_repeat_token :
  duplicate_order_ids (fst (fill_pool (fun _ => 0%nat) 20 0 (init_state 300))) =
    repeat "1111111111" 20 /\
  ~ NoDup (repeat "1111111111" 20).
Proof.
  split; [reflexivity|].
  intros H. inversion H as [|x l Hin _]; subst. apply Hin. left. reflexivity.
Qed.

(** C9, as stated, fails: when the login request is answered with status
    500, [login] raises, [runner] ends with that exception and the session,
    opened by [setup], is never closed. *)
Lemma login_refused_leaves_session_open :
  ended (runner Decimal.float_of_str Example.login_refused Example.the_bot) =
    Raised (Exception "Login failed! due to bad request") /\
  events (runner Decimal.float_of_str Example.login_refused Example.the_bot) =
    [EvCookies; EvLogin] /\
  closes [EvCookies; EvLogin] = 0%nat /\
  session (bot_of (runner Decimal.float_of_str Example.login_refused
                     Example.the_bot)) = true.
Proof. vm_compute. repeat split; reflexivity. Qed.

(** In the session of the examples the task of SAGAR raises (its quote
    request fails) and the task of JHAPA returns: the run returns. *)
Lemma session_closed_witness :
  ended (runner Decimal.float_of_str Example.good_world Example.the_bot) = Returned.
Proof.
  apply (proj2 (session_closed_when_run_returns Decimal.float_of_str
                  Example.good_world Example.the_bot)
           (Some "0A1B2C") Example.entry
           (mk_run Returned Example.entry [EvStatus])
           [Example.quote "1,002" "8.0"]);
    vm_compute; reflexivity.
Defined.

(** * Further properties of the code *)

(** ** Reading a quote *)

Section QuoteFacts.

Variable float_of_str : string -> option float.

(** The [try] block of [watch_stock] completes exactly when the five keys are
    there and readable, and then the five quote keys of the entry hold the
    values read, in the order of the assignments. *)
Lemma read_watch_success (d : watch_data) (st st' : stock_state) :
  read_watch float_of_str (Some d) st = (st', true) ->
  exists v1 v2 x2 v3 v4 x4 v5 h x5,
    tradeprice d = Some v1 /\
    vwap d = Some v2 /\ float_of_text float_of_str v2 = Ok x2 /\
    openingprice d = Some v3 /\
    perchange d = Some v4 /\ float_or_0 float_of_str v4 = Some x4 /\
    highdpr d = Some v5 /\ float_of_repr float_of_str v5 = Some h /\
    PyFloat.trunc1 h = Ok x5 /\
    st' = set_circuit_price x5
            (set_percent x4
               (set_opening_price v3
                  (set_previous_day_closing x2 (set_ltp v1 st)))).
Proof.
  unfold read_watch, attempt.
  destruct (tradeprice d) as [v1|]; [|discriminate].
  destruct (vwap d) as [v2|]; [|discriminate].
  destruct (float_of_text float_of_str v2) as [x2|e2] eqn:E2; [|discriminate].
  simpl.
  destruct (openingprice d) as [v3|]; [|discriminate].
  destruct (perchange d) as [v4|]; [|discriminate].
  destruct (float_or_0 float_of_str v4) as [x4|] eqn:E4; [|discriminate].
  destruct (highdpr d) as [v5|]; [|discriminate].
  destruct (float_of_repr float_of_str v5) as [h|] eqn:E5; [|discriminate].
  destruct (PyFloat.trunc1 h) as [x5|e5] eqn:T; [|discriminate].
  simpl. intros H; inversion H; subst.
  exists v1, v2, x2, v3, v4, x4, v5, h, x5. repeat split; auto.
Qed.

Lemma watch_stock_success (symbol : string) (w : watch_reply)
    (st st' : stock_state) (evs : list event) :
  watch_stock float_of_str symbol w st = (st', evs, None) ->
  exists d, w_data w = Some d /\ read_watch float_of_str (Some d) st = (st', true).
Proof.
  unfold watch_stock. destruct (w_status w =? 200); [|discriminate].
  destruct (w_data w) as [d|] eqn:D.
  - destruct (read_watch float_of_str (Some d) st) as [s [|]] eqn:R;
      intros H; inversion H; subst. exists d. split; [reflexivity | exact R].
  - simpl. discriminate.
Qed.

(** X1. A quote poll, whether it succeeds or raises, sends one quote request
    for its symbol and no order, and writes none of the keys the trading
    logic lives on (quantity, last trigger, ceiling band, gap, pool, cursor,
    parsed price, limit price); on a status other than 200 it raises
    ["Failed to fetch watch details!"] with the entry untouched. *)
Theorem quote_poll_keeps_trading_state (symbol : string) (w : watch_reply)
    (st : stock_state) :
  same_beyond_quote st (fst (fst (watch_stock float_of_str symbol w st))) /\
  polls (snd (fst (watch_stock float_of_str symbol w st))) = [symbol] /\
  orders (snd (fst (watch_stock float_of_str symbol w st))) = [] /\
  (w_status w <> 200 ->
   watch_stock float_of_str symbol w st =
   (st, [EvWatch symbol], Some (Exception "Failed to fetch watch details!"))).
Proof.
  destruct (watch_stock float_of_str symbol w st) as [[st' evs] e] eqn:W.
  simpl. split; [exact (watch_stock_frame _ _ _ _ _ _ _ W)|].
  destruct (watch_stock_events _ _ _ _ _ _ _ W) as (logs & -> & Hlogs).
  destruct (logs_no_orders _ Hlogs) as [Ho Hp].
  simpl. rewrite Ho, Hp. split; [reflexivity|]. split; [reflexivity|].
  intros Hs. unfold watch_stock in W.
  destruct (w_status w =? 200) eqn:S; [apply Z.eqb_eq in S; contradiction|].
  symmetry. exact W.
Qed.

(** X2. The assignments of [watch_stock] made before a field fails to read
    stay: a reply whose ceiling price [highdpr] is absent or unreadable raises
    ["Seems like market is closed!"], logs the parse error, and leaves the
    entry with the new trade price, close, opening price and percent change
    beside the old ceiling price. *)
Theorem unreadable_ceiling_keeps_earlier_keys (symbol : string)
    (d : watch_data) (st : stock_state) (v1 v2 v3 v4 : pyval) (x2 x4 : float) :
  tradeprice d = Some v1 ->
  vwap d = Some v2 -> float_of_text float_of_str v2 = Ok x2 ->
  openingprice d = Some v3 ->
  perchange d = Some v4 -> float_or_0 float_of_str v4 = Some x4 ->
  match highdpr d with
  | Some v5 =>
      match float_of_repr float_of_str v5 with
      | Some h => to_opt (PyFloat.trunc1 h)
      | None => None
      end
  | None => None
  end = None ->
  watch_stock float_of_str symbol (mk_watch_reply 200 (Some d)) st =
  (set_percent x4
     (set_opening_price v3 (set_previous_day_closing x2 (set_ltp v1 st))),
   [EvWatch symbol; EvLog LogWatchError],
   Some (Exception "Seems like market is closed!")).
Proof.
  intros H1 H2 E2 H3 H4 E4 H5.
  unfold watch_stock, read_watch, attempt. simpl.
  rewrite H1, H2, E2. simpl. rewrite H3, H4, E4, H5. reflexivity.
Qed.

(** X3. [float(perchange or 0)]: a percent change that is [null], empty or
    zero is read as 0.0, not refused; and 0.0 is above the initial value -2 of
    the last trigger, so such a quote qualifies for an order. *)
Theorem empty_percent_change_reads_zero (symbol : string) (w : watch_reply)
    (st st' : stock_state) (evs : list event) (d : watch_data) (v : pyval) :
  watch_stock float_of_str symbol w st = (st', evs, None) ->
  w_data w = Some d ->
  perchange d = Some v ->
  truthy v = false ->
  percent st' = 0%float /\ PyFloat.gt (percent st') (-2) = true.
Proof.
  intros W D P T.
  destruct (watch_stock_success _ _ _ _ _ W) as (d' & D' & R).
  rewrite D in D'. inversion D'; subst d'.
  destruct (read_watch_success _ _ _ R)
    as (v1 & v2 & x2 & v3 & v4 & x4 & v5 & h & x5 & _ & _ & _ & _ & P' & F & _ & _ & _ & ->).
  rewrite P in P'. inversion P'; subst v4.
  unfold float_or_0 in F. rewrite T in F. inversion F; subst x4.
  simpl. split; reflexivity.
Qed.

(** X4. The ceiling price a successful poll stores is [highdpr] cut to one
    decimal: [int(highdpr * 10) / 10], with [int] cutting the fraction of
    [highdpr * 10] off toward zero. *)
Theorem ceiling_price_cut_to_one_decimal (symbol : string) (w : watch_reply)
    (st st' : stock_state) (evs : list event) :
  watch_stock float_of_str symbol w st = (st', evs, None) ->
  exists d v h n,
    w_data w = Some d /\ highdpr d = Some v /\
    float_of_repr float_of_str v = Some h /\
    PyFloat.int_of_float (h * 10)%float = Ok n /\
    PyFloat.truncation_of (h * 10)%float n /\
    PyFloat.int_truediv n 10 = Ok (circuit_price st').
Proof.
  intros W.
  destruct (watch_stock_success _ _ _ _ _ W) as (d & D & R).
  destruct (read_watch_success _ _ _ R)
    as (v1 & v2 & x2 & v3 & v4 & x4 & v5 & h & x5 & _ & _ & _ & _ & _ & _ & H5 & F & T & ->).
  unfold PyFloat.trunc1 in T.
  destruct (PyFloat.int_of_float (h * 10)%float) as [n|e] eqn:I; [|discriminate].
  simpl in T. exists d, v5, h, n.
  repeat split; auto. apply int_of_float_truncates. exact I.
Qed.

(** X5. [replace(',', '')] drops every comma and nothing else, so a price
    written with thousands separators reads as the same price without
    them. *)
Theorem thousands_separators_dropped (s : string) :
  characters (remove_commas s) =
    filter (fun c => negb (Ascii.eqb c ",")) (characters s) /\
  ~ In ","%char (characters (remove_commas s)) /\
  remove_commas (remove_commas s) = remove_commas s /\
  float_of_text float_of_str (PyStr (remove_commas s)) =
    float_of_text float_of_str (PyStr s).
Proof.
  assert (F : forall t, characters (remove_commas t) =
                        filter (fun c => negb (Ascii.eqb c ",")) (characters t)).
  { induction t as [|c t IH]; simpl; [reflexivity|].
    destruct (Ascii.eqb c ","); simpl; rewrite IH; reflexivity. }
  assert (N : forall t, ~ In ","%char (characters (remove_commas t))).
  { intros t H. rewrite F in H. apply filter_In in H. destruct H as [_ H].
    rewrite Ascii.eqb_refl in H. discriminate. }
  assert (I : forall t, ~ In ","%char (characters t) -> remove_commas t = t).
  { induction t as [|c t IH]; simpl; [reflexivity|]. intros H.
    destruct (Ascii.eqb c ",") eqn:E.
    - apply Ascii.eqb_eq in E. subst c. exfalso. apply H. left. reflexivity.
    - rewrite IH; [reflexivity|]. intros H'. apply H. right. exact H'. }
  split; [apply F|]. split; [apply N|].
  assert (Idem : remove_commas (remove_commas s) = remove_commas s)
    by (apply I, N).
  split; [exact Idem|]. simpl. rewrite Idem. reflexivity.
Qed.

End QuoteFacts.

(** ** Orders and their replies *)

Section OrderFacts.

Variable float_of_str : string -> option float.

(** X6. A reply to an order with status 200 and a ['code'] other than ['0']
    is not an error for [place_buy_order]: nothing is raised, only the
    "Order is placed" record is not written, and [detect] goes on as after
    an accepted probing order, the last trigger raised to the quote's percent
    change and the token cursor moved on. *)
Theorem refused_order_counts_as_placed (symbol : string)
    (os : list order_reply) (o : order_reply) (st : stock_state)
    (p h : float) (token : string) (c : pyval) :
  float_of_text float_of_str (ltp st) = Ok p ->
  PyFloat.trunc1 (p * 1.02)%float = Ok h ->
  PyFloat.gt (percent st) (initial_per st) = true ->
  nth_error (duplicate_order_ids st) (order_id_index st) = Some token ->
  PyFloat.le (circuit_per st - percent st) 2.1 = false ->
  o_status o = 200 ->
  o_code o = Some c ->
  eq_str c "0" = false ->
  iteration float_of_str symbol (o :: os) st =
  ToPoll
    (set_order_id_index (S (order_id_index st))
       (set_initial_per (percent st) (drawn token (priced p h st))))
    os
    [EvOrder (order_of symbol (drawn token (priced p h st)) default_qnty);
     EvLog LogOrderTime].
Proof.
  intros P T G N L S C E. unfold iteration.
  rewrite P. simpl. rewrite T. simpl. rewrite G, N. simpl. rewrite L.
  unfold place_buy_order. rewrite S, C, E. reflexivity.
Qed.

(** X7. No order is retried: when the reply to an order has a status other
    than 200, or a body without a readable ['code'], [place_buy_order] raises,
    the handler of [detect] logs the exception and the coroutine returns;
    that one order was the last request of the run, and neither the last
    trigger nor the token cursor has moved. *)
Theorem failed_order_ends_loop (symbol : string) (ws : list watch_reply)
    (os : list order_reply) (o : order_reply) (st : stock_state)
    (p h : float) (token : string) :
  float_of_text float_of_str (ltp st) = Ok p ->
  PyFloat.trunc1 (p * 1.02)%float = Ok h ->
  PyFloat.gt (percent st) (initial_per st) = true ->
  nth_error (duplicate_order_ids st) (order_id_index st) = Some token ->
  o_status o <> 200 \/ o_code o = None ->
  ending_of (active float_of_str symbol ws (o :: os) st) = Returned /\
  List.length (orders (trace_of (active float_of_str symbol ws (o :: os) st)))
    = 1%nat /\
  polls (trace_of (active float_of_str symbol ws (o :: os) st)) = [] /\
  initial_per (state_of (active float_of_str symbol ws (o :: os) st))
    = initial_per st /\
  order_id_index (state_of (active float_of_str symbol ws (o :: os) st))
    = order_id_index st /\
  exists msg,
    In (EvLog (LogException (Exception msg)))
       (trace_of (active float_of_str symbol ws (o :: os) st)) /\
    (msg = "Failed to place buy order!" \/
     msg = "Buy Response is not in expected format!").
Proof.
  intros P T G N F.
  assert (A : exists s evs msg,
             active float_of_str symbol ws (o :: os) st =
               handled (Exception msg) s evs /\
             initial_per s = initial_per st /\
             order_id_index s = order_id_index st /\
             (exists q, evs = [EvOrder (order_of symbol s q)] \/
                        evs = [EvOrder (order_of symbol s q); EvLog LogOrderTime]) /\
             (msg = "Failed to place buy order!" \/
              msg = "Buy Response is not in expected format!")).
  { assert (I : exists s evs msg,
               iteration float_of_str symbol (o :: os) st =
                 Ended (handled (Exception msg) s evs) /\
               initial_per s = initial_per st /\
               order_id_index s = order_id_index st /\
               (exists q, evs = [EvOrder (order_of symbol s q)] \/
                          evs = [EvOrder (order_of symbol s q); EvLog LogOrderTime]) /\
               (msg = "Failed to place buy order!" \/
                msg = "Buy Response is not in expected format!")).
    { unfold iteration.
      rewrite P. simpl. rewrite T. simpl. rewrite G, N. simpl.
      destruct (PyFloat.le (circuit_per st - percent st) 2.1);
        unfold place_buy_order;
        (destruct (o_status o =? 200) eqn:S;
         [ destruct F as [F|F];
           [ apply Z.eqb_eq in S; contradiction
           | rewrite F; eexists; eexists; eexists;
             split; [reflexivity|]; repeat split;
             [ eexists; right; reflexivity | right; reflexivity ] ]
         | eexists; eexists; eexists;
           split; [reflexivity|]; repeat split;
           [ eexists; left; reflexivity | left; reflexivity ] ]). }
    destruct I as (s & evs & msg & I & H).
    exists s, evs, msg. split; [|exact H].
    destruct ws; simpl; rewrite I; reflexivity. }
  destruct A as (s & evs & msg & -> & Hi & Hx & (q & Hevs) & Hmsg).
  unfold handled. simpl.
  split; [reflexivity|].
  split; [destruct Hevs as [-> | ->]; reflexivity|].
  split; [destruct Hevs as [-> | ->]; reflexivity|].
  split; [exact Hi|]. split; [exact Hx|].
  exists msg. split; [|exact Hmsg].
  apply in_or_app. right. left. reflexivity.
Qed.

End OrderFacts.

(** ** Whole runs of [detect] *)

Section RunFacts.

Variable float_of_str : string -> option float.

(** A pass that ends the coroutine never ends it with an exception. *)
Lemma iteration_Ended_caught (symbol : string) (os : list order_reply)
    (st : stock_state) (r : run) :
  iteration float_of_str symbol os st = Ended r ->
  ending_of r = Returned \/ ending_of r = Waiting.
Proof.
  unfold iteration.
  destruct (float_of_text float_of_str (ltp st)) as [p|e]; simpl;
    [|intros H; inversion H; left; reflexivity].
  destruct (PyFloat.trunc1 (p * 1.02)%float) as [h|e]; simpl;
    [|intros H; inversion H; left; reflexivity].
  destruct (PyFloat.gt (percent st) (initial_per st)); simpl; [|discriminate].
  destruct (nth_error (duplicate_order_ids st) (order_id_index st)); simpl;
    [|intros H; inversion H; left; reflexivity].
  destruct (PyFloat.le (circuit_per st - percent st) 2.1); simpl;
    (destruct os as [|o os']; simpl; [intros H; inversion H; right; reflexivity|]);
    destruct (place_buy_order _ _ _ _) as [evs [e|]]; simpl;
    intros H; inversion H; left; reflexivity.
Qed.

Lemma active_caught (symbol : string) (ws : list watch_reply)
    (os : list order_reply) (st : stock_state) :
  ending_of (active float_of_str symbol ws os st) = Returned \/
  ending_of (active float_of_str symbol ws os st) = Waiting.
Proof.
  revert os st. induction ws as [|w ws IH]; intros os st; simpl;
    destruct (iteration float_of_str symbol os st) as [s1 os1 evs1|r] eqn:I;
    try exact (iteration_Ended_caught _ _ _ _ I).
  - right. reflexivity.
  - destruct (watch_stock float_of_str symbol w s1) as [[s2 evs2] [e|]];
      simpl; [left; reflexivity | apply IH].
Qed.

(** The first loop of [detect] submits nothing, however it is left. *)
Lemma await_open_no_orders (symbol : string) (ws : list watch_reply)
    (st : stock_state) :
  match await_open float_of_str symbol ws st with
  | Opened _ _ evs => orders evs = []
  | NotOpened r => orders (trace_of r) = []
  end.
Proof.
  revert st. induction ws as [|w ws IH]; intros st; simpl;
    destruct (truthy (opening_price st)); try reflexivity.
  destruct (watch_stock float_of_str symbol w st) as [[s1 evs1] [e|]] eqn:W;
    destruct (watch_stock_events _ _ _ _ _ _ _ W) as (logs & -> & Hlogs);
    destruct (logs_no_orders _ Hlogs) as [Ho _]; [exact Ho|].
  specialize (IH s1).
  destruct (await_open float_of_str symbol ws s1) as [ws2 s2 evs2|r]; simpl;
    rewrite ?orders_app; simpl; rewrite Ho, IH; reflexivity.
Qed.

(** X8. Inside the loop of [detect] every exception is caught: the loop
    never ends with one.  [detect] raises only before its loop, from a poll
    of its first loop or from the computation of the ceiling band, and a run
    of [detect] that raised has submitted no order. *)
Theorem detect_raises_only_before_trading (symbol : string)
    (ws : list watch_reply) (os : list order_reply) (st : stock_state) :
  (ending_of (active float_of_str symbol ws os st) = Returned \/
   ending_of (active float_of_str symbol ws os st) = Waiting) /\
  (forall e,
      ending_of (detect float_of_str symbol ws os st) = Raised e ->
      orders (trace_of (detect float_of_str symbol ws os st)) = []).
Proof.
  split; [apply active_caught|].
  intros e. unfold detect.
  pose proof (await_open_no_orders symbol ws st) as A.
  destruct (await_open float_of_str symbol ws st) as [ws' st' evs|r];
    [|intros _; exact A].
  destruct (circuit_per_of _ _) as [c|e']; simpl; [|intros _; exact A].
  intros H.
  destruct (active_caught symbol ws' os (set_circuit_per c st')) as [R|R];
    rewrite R in H; discriminate.
Qed.

(** X9. A previous close of zero is not guarded against: when the session
    opens on a quote whose [vwap] reads as 0, the division in the ceiling
    band raises [ZeroDivisionError], outside the [try] of [detect], which ends
    with that exception having submitted nothing. *)
Theorem zero_close_raises_zero_division (symbol : string)
    (ws ws' : list watch_reply) (os : list order_reply)
    (st st' : stock_state) (evs : list event) :
  await_open float_of_str symbol ws st = Opened ws' st' evs ->
  PrimFloat.is_zero (previous_day_closing st') = true ->
  detect float_of_str symbol ws os st = mk_run (Raised ZeroDivisionError) st' evs /\
  orders evs = [].
Proof.
  intros A Z. split.
  - unfold detect. rewrite A. unfold circuit_per_of, PyFloat.float_div.
    rewrite Z. reflexivity.
  - pose proof (await_open_no_orders symbol ws st) as H. rewrite A in H. exact H.
Qed.

(** What a pass through the body submits: nothing, or one order carrying the
    token under the cursor; a pass that goes on to the poll has submitted a
    probing order or nothing, and moved the cursor by one or not at all. *)
Lemma iteration_order_cases (symbol : string) (os : list order_reply)
    (st : stock_state) :
  match iteration float_of_str symbol os st with
  | ToPoll st' _ evs =>
      (orders evs = [] /\ order_id_index st' = order_id_index st) \/
      (exists o token,
          orders evs = [o] /\
          nth_error (duplicate_order_ids st) (order_id_index st) = Some token /\
          duplicateOrderId o = Some token /\
          probe_shape symbol o /\
          order_id_index st' = S (order_id_index st))
  | Ended r =>
      orders (trace_of r) = [] \/
      (exists o token,
          orders (trace_of r) = [o] /\
          nth_error (duplicate_order_ids st) (order_id_index st) = Some token /\
          duplicateOrderId o = Some token /\
          txtSecurity o = symbol /\
          (probe_shape symbol o \/ spnQuantity o = applied_qnty st))
  end.
Proof.
  unfold iteration.
  destruct (float_of_text float_of_str (ltp st)) as [p|e]; simpl;
    [|left; reflexivity].
  destruct (PyFloat.trunc1 (p * 1.02)%float) as [h|e] eqn:T; simpl;
    [|left; reflexivity].
  destruct (PyFloat.gt (percent st) (initial_per st)); simpl;
    [|left; split; reflexivity].
  destruct (nth_error (duplicate_order_ids st) (order_id_index st))
    as [token|] eqn:N; simpl; [|left; reflexivity].
  destruct (PyFloat.le (circuit_per st - percent st) 2.1); simpl.
  - destruct os as [|o os']; simpl.
    + right. eexists; exists token. repeat split; try reflexivity.
      right. reflexivity.
    + destruct (place_buy_order _ _ _ _) as [evs [e|]] eqn:B;
        destruct (place_buy_order_events _ _ _ _ _ _ B) as (logs & -> & Hlogs);
        destruct (logs_no_orders _ Hlogs) as [Ho _];
        simpl; rewrite ?orders_app, Ho; simpl;
        right; eexists; exists token; repeat split; try reflexivity;
        right; reflexivity.
  - destruct os as [|o os']; simpl.
    + right. eexists; exists token. repeat split; try reflexivity.
      left. repeat split; try reflexivity. exact T.
    + destruct (place_buy_order _ _ _ _) as [evs [e|]] eqn:B;
        destruct (place_buy_order_events _ _ _ _ _ _ B) as (logs & -> & Hlogs);
        destruct (logs_no_orders _ Hlogs) as [Ho _];
        simpl; rewrite ?orders_app, Ho; simpl;
        right; eexists; exists token; repeat split; try reflexivity;
        try exact T.
      left. repeat split; try reflexivity. exact T.
Qed.

(** X10. The orders of a whole run of the loop, in order: probing orders,
    each for the probing quantity of 10 at the limit price cut from 1.02
    times the trade price it reports, then at most one last order for the
    configured quantity; all of them for the symbol of the loop. *)
Theorem run_orders_probes_then_final (symbol : string)
    (ws : list watch_reply) (os : list order_reply) (st : stock_state) :
  exists probes final,
    orders (trace_of (active float_of_str symbol ws os st)) = probes ++ final /\
    Forall (probe_shape symbol) probes /\
    (final = [] \/
     exists o, final = [o] /\ txtSecurity o = symbol /\
               spnQuantity o = applied_qnty st).
Proof.
  revert os st. induction ws as [|w ws IH]; intros os st; simpl;
    pose proof (iteration_order_cases symbol os st) as C;
    pose proof (iteration_frame float_of_str symbol os st) as F;
    destruct (iteration float_of_str symbol os st) as [s1 os1 evs1|r].
  - simpl. rewrite orders_app. simpl. rewrite app_nil_r.
    destruct C as [[-> _] | (o & token & -> & _ & _ & Hp & _)].
    + exists [], []. repeat split; auto.
    + exists [o], []. repeat split; auto.
  - destruct C as [-> | (o & token & -> & _ & _ & Hs & [Hp | Hq])].
    + exists [], []. repeat split; auto.
    + exists [o], []. repeat split; auto.
    + exists [], [o]. repeat split; auto. right. exists o. auto.
  - destruct F as (Ha & _).
    destruct (watch_stock float_of_str symbol w s1) as [[s2 evs2] [e|]] eqn:W;
      destruct (watch_stock_events _ _ _ _ _ _ _ W) as (logs & -> & Hlogs);
      destruct (logs_no_orders _ Hlogs) as [Ho _];
      destruct (watch_stock_frame _ _ _ _ _ _ _ W) as (Ha2 & _).
    + simpl. rewrite !orders_app. simpl. rewrite Ho. simpl. rewrite app_nil_r.
      destruct C as [[-> _] | (o & token & -> & _ & _ & Hp & _)].
      * exists [], []. repeat split; auto.
      * exists [o], []. repeat split; auto.
    + simpl. rewrite !orders_app. simpl. rewrite Ho. simpl.
      destruct (IH os1 s2) as (probes & final & -> & Hpr & Hf).
      assert (Hf' : final = [] \/
                    exists o, final = [o] /\ txtSecurity o = symbol /\
                              spnQuantity o = applied_qnty st).
      { destruct Hf as [-> | (o & -> & Hs & Hq)]; [left; reflexivity|].
        right. exists o. repeat split; auto. congruence. }
      destruct C as [[-> _] | (o & token & -> & _ & _ & Hp & _)].
      * exists probes, final. repeat split; auto.
      * exists (o :: probes), final. repeat split; auto.
  - destruct C as [-> | (o & token & -> & _ & _ & Hs & [Hp | Hq])].
    + exists [], []. repeat split; auto.
    + exists [o], []. repeat split; auto.
    + exists [], [o]. repeat split; auto. right. exists o. auto.
Qed.

Lemma NoDup_firstn {A : Type} (n : nat) (l : list A) :
  NoDup l -> NoDup (firstn n l).
Proof.
  revert n. induction l as [|x l IH]; intros [|n] H; simpl; try constructor.
  - inversion H as [|y l' Hin Hnd]; subst.
    intros Hx. apply Hin. revert Hx. clear. revert n.
    induction l as [|y l IH]; intros [|n]; simpl; try tauto.
    intros [-> | Hx]; [left; reflexivity | right; exact (IH n Hx)].
  - inversion H; subst. apply IH. assumption.
Qed.

Lemma NoDup_map_Some {A : Type} (l : list A) : NoDup l -> NoDup (map Some l).
Proof.
  induction 1 as [|x l Hin _ IH]; simpl; constructor; [|exact IH].
  intros Hx. apply in_map_iff in Hx. destruct Hx as (y & E & Hy).
  inversion E; subst. contradiction.
Qed.

(** X11. Over a whole run of the loop, failed and last orders included, the
    orders carry the tokens of the pool in order from the cursor on, one
    position each: no position of the pool is used twice, and a run submits
    no more orders than the pool has tokens left (20 for a pool fresh from
    [setup]).  The tokens sent are pairwise distinct when the tokens left in
    the pool are, which [setup] does not see to; when the pool holds a token
    twice, the orders at the two positions carry the same token. *)
Theorem run_orders_draw_pool_in_order (symbol : string)
    (ws : list watch_reply) (os : list order_reply) (st : stock_state) :
  map duplicateOrderId (orders (trace_of (active float_of_str symbol ws os st))) =
    map Some
      (firstn (List.length (orders (trace_of (active float_of_str symbol ws os st))))
         (skipn (order_id_index st) (duplicate_order_ids st))) /\
  (List.length (orders (trace_of (active float_of_str symbol ws os st)))
   <= List.length (duplicate_order_ids st) - order_id_index st)%nat /\
  (NoDup (skipn (order_id_index st) (duplicate_order_ids st)) ->
   NoDup (map duplicateOrderId
            (orders (trace_of (active float_of_str symbol ws os st))))) /\
  (forall i j token,
      nth_error (skipn (order_id_index st) (duplicate_order_ids st)) i = Some token ->
      nth_error (skipn (order_id_index st) (duplicate_order_ids st)) j = Some token ->
      (i < List.length (orders (trace_of (active float_of_str symbol ws os st))))%nat ->
      (j < List.length (orders (trace_of (active float_of_str symbol ws os st))))%nat ->
      nth_error (map duplicateOrderId
                   (orders (trace_of (active float_of_str symbol ws os st)))) i =
        Some (Some token) /\
      nth_error (map duplicateOrderId
                   (orders (trace_of (active float_of_str symbol ws os st)))) j =
        Some (Some token)).
Proof.
  assert (E : forall ws os st,
             map duplicateOrderId
               (orders (trace_of (active float_of_str symbol ws os st))) =
             map Some
               (firstn (List.length
                          (orders (trace_of (active float_of_str symbol ws os st))))
                  (skipn (order_id_index st) (duplicate_order_ids st)))).
  { clear ws os st.
    assert (One : forall (st : stock_state) o token,
               nth_error (duplicate_order_ids st) (order_id_index st) = Some token ->
               duplicateOrderId o = Some token ->
               map duplicateOrderId [o] =
               map Some (firstn 1 (skipn (order_id_index st) (duplicate_order_ids st)))).
    { intros st o token N D. rewrite (skipn_nth_error _ _ _ N). simpl.
      rewrite D. reflexivity. }
    induction ws as [|w ws IH]; intros os st; simpl;
      pose proof (iteration_order_cases symbol os st) as C;
      pose proof (iteration_frame float_of_str symbol os st) as F;
      destruct (iteration float_of_str symbol os st) as [s1 os1 evs1|r].
    - simpl. rewrite orders_app. simpl. rewrite app_nil_r.
      destruct C as [[-> _] | (o & token & -> & N & D & _ & _)];
        [reflexivity | exact (One st o token N D)].
    - destruct C as [-> | (o & token & -> & N & D & _ & _)];
        [reflexivity | exact (One st o token N D)].
    - destruct F as (_ & _ & Hpool & _).
      destruct (watch_stock float_of_str symbol w s1) as [[s2 evs2] [e|]] eqn:W;
        destruct (watch_stock_events _ _ _ _ _ _ _ W) as (logs & -> & Hlogs);
        destruct (logs_no_orders _ Hlogs) as [Ho _];
        destruct (watch_stock_frame _ _ _ _ _ _ _ W)
          as (_ & _ & _ & _ & _ & _ & _ & Hpool2 & Hidx2).
      + simpl. rewrite !orders_app. simpl. rewrite Ho. simpl. rewrite app_nil_r.
        destruct C as [[-> _] | (o & token & -> & N & D & _ & _)];
          [reflexivity | exact (One st o token N D)].
      + simpl. rewrite !orders_app. simpl. rewrite Ho. simpl.
        specialize (IH os1 s2). rewrite Hpool2, Hidx2, Hpool in IH.
        destruct C as [[-> Hi] | (o & token & -> & N & D & _ & Hi)];
          rewrite Hi in IH.
        * simpl. exact IH.
        * simpl. rewrite IH, D, (skipn_nth_error _ _ _ N). reflexivity.
    - destruct C as [-> | (o & token & -> & N & D & _ & _)];
        [reflexivity | exact (One st o token N D)]. }
  split; [apply E|].
  split.
  { pose proof (f_equal (@List.length _) (E ws os st)) as L.
    rewrite !length_map, length_firstn, length_skipn in L. lia. }
  split.
  { intros N. rewrite E. apply NoDup_map_Some, NoDup_firstn, N. }
  intros i j token Hi Hj Li Lj. rewrite E.
  split; apply map_nth_error; rewrite nth_error_firstn.
  - apply Nat.ltb_lt in Li. rewrite Li. exact Hi.
  - apply Nat.ltb_lt in Lj. rewrite Lj. exact Hj.
Qed.

End RunFacts.

(** ** The market gate, again *)

Section GateRunFacts.

Variable float_of_str : string -> option float.

Lemma market_status_events (r : status_reply) :
  orders (snd (market_status r)) = [] /\ polls (snd (market_status r)) = [] /\
  exists logs, snd (market_status r) = EvStatus :: logs.
Proof.
  unfold market_status. destruct (ms_status r =? 200);
    [destruct (ms_payload r)|]; simpl; repeat split; eexists; reflexivity.
Qed.

(** What the gate does to the entry of the demo symbol and to the replies it
    is given, however it ends. *)
Lemma gate_frame (demo : string) (ticks : list (Z * status_reply))
    (ws : list watch_reply) (st : stock_state) :
  same_beyond_quote st
    (state_of (fst (wait_market_open float_of_str demo ticks ws st))) /\
  orders (trace_of (fst (wait_market_open float_of_str demo ticks ws st))) = [] /\
  Forall (eq demo)
    (polls (trace_of (fst (wait_market_open float_of_str demo ticks ws st)))) /\
  exists used,
    ws = used ++ snd (wait_market_open float_of_str demo ticks ws st).
Proof.
  revert ws st. induction ticks as [|[hour r] ticks IH]; intros ws st; simpl.
  - split; [apply same_beyond_quote_refl|]. repeat split; [constructor|].
    exists []. reflexivity.
  - destruct (market_status_events r) as (Mo & Mp & _).
    destruct (market_status r) as [status evs]. simpl in Mo, Mp.
    destruct (gate_open hour status); simpl.
    + split; [apply same_beyond_quote_refl|]. split; [exact Mo|].
      rewrite Mp. split; [constructor | exists []; reflexivity].
    + destruct ws as [|w ws']; simpl.
      * split; [apply same_beyond_quote_refl|].
        rewrite orders_app, polls_app, Mo, Mp. simpl.
        repeat split; [repeat constructor | exists []; reflexivity].
      * destruct (watch_stock float_of_str demo w st) as [[st' evs'] [e|]] eqn:W;
          pose proof (watch_stock_frame _ _ _ _ _ _ _ W) as Fr;
          destruct (watch_stock_events _ _ _ _ _ _ _ W) as (logs & -> & Hlogs);
          destruct (logs_no_orders _ Hlogs) as [Ho Hp]; simpl.
        -- split; [exact Fr|].
           rewrite orders_app, polls_app, Mo, Mp. simpl. rewrite Ho, Hp.
           repeat split; [repeat constructor | exists [w]; reflexivity].
        -- destruct (IH ws' st') as (F & O & P & used & U).
           destruct (wait_market_open float_of_str demo ticks ws' st')
             as [g rest]. simpl in *.
           split; [exact (same_beyond_quote_trans _ _ _ Fr F)|].
           rewrite !orders_app, !polls_app, Mo, Mp. simpl. rewrite Ho, Hp, O.
           repeat split; [constructor; [reflexivity | exact P]|].
           exists (w :: used). simpl. rewrite <- U. reflexivity.
Qed.

(** X12. The market gate never submits an order; it polls quotes for the
    demo symbol only; of the demo symbol's entry it writes the quote keys
    only; and the quote replies it has not consumed are the tail of those it
    was given, left for [detect]. *)
Theorem gate_only_polls_demo_symbol (demo : string)
    (ticks : list (Z * status_reply)) (ws : list watch_reply)
    (st : stock_state) :
  same_beyond_quote st
    (state_of (fst (wait_market_open float_of_str demo ticks ws st))) /\
  orders (trace_of (fst (wait_market_open float_of_str demo ticks ws st))) = [] /\
  Forall (eq demo)
    (polls (trace_of (fst (wait_market_open float_of_str demo ticks ws st)))) /\
  exists used,
    ws = used ++ snd (wait_market_open float_of_str demo ticks ws st).
Proof. apply gate_frame. Qed.


End GateRunFacts.

(** ** Runs of the orchestrator *)

Lemma login_events (r : login_reply) :
  orders (fst (login r)) = [] /\ exists rest, fst (login r) = EvLogin :: rest.
Proof.
  unfold login. destruct (l_status r =? 200);
    [|split; [reflexivity | eexists; reflexivity]].
  destruct (l_data r) as [d|]; [|split; [reflexivity | eexists; reflexivity]].
  destruct (l_code d) as [c|]; [|split; [reflexivity | eexists; reflexivity]].
  destruct (eq_str c "0"); [|split; [reflexivity | eexists; reflexivity]].
  destruct (l_watchID d), (l_broker_code d);
    split; try reflexivity; eexists; reflexivity.
Qed.

Lemma fetch_events (r : details_reply) : orders (fst (fetch_user_details r)) = [].
Proof.
  unfold fetch_user_details. destruct (d_status r =? 200); [|reflexivity].
  destruct (d_user r); reflexivity.
Qed.

Section RunnerRunFacts.

Variable float_of_str : string -> option float.

(** A run of [runner] that ends with an exception ended before the tasks. *)
Lemma runner_raised (w : world) (b : bot) (e : exn) :
  ended (runner float_of_str w b) = Raised e ->
  orders (events (runner float_of_str w b)) = [] /\
  closes (events (runner float_of_str w b)) = 0%nat /\
  session (bot_of (runner float_of_str w b)) = true.
Proof.
  unfold runner.
  destruct (get_cookies (cookies_in w)) as [ck|e0]; simpl;
    [|repeat split; reflexivity].
  destruct (login_events (login_in w)) as [L _].
  pose proof (login_no_close (login_in w)) as Lc.
  destruct (login (login_in w)) as [evs1 [e1|]]; simpl in *;
    [intros _; repeat split; assumption|].
  pose proof (fetch_events (details_in w)) as F.
  pose proof (fetch_no_close (details_in w)) as Fc.
  destruct (fetch_user_details (details_in w)) as [evs2 [e2|]]; simpl in *;
    [intros _; rewrite orders_app, closes_app, L, F, Lc, Fc;
     repeat split; reflexivity|].
  destruct (dict_get (demo_symbol b) (fill_pools (rng w) 0 (stock_states b)))
    as [st|]; simpl;
    [|intros _; rewrite orders_app, closes_app, L, F, Lc, Fc;
      repeat split; reflexivity].
  destruct (gate_frame float_of_str (demo_symbol b) (ticks_in w)
              (watch_in w (demo_symbol b)) st) as (_ & G & _).
  pose proof (gate_no_close float_of_str (demo_symbol b) (ticks_in w)
                (watch_in w (demo_symbol b)) st) as Gc.
  destruct (wait_market_open float_of_str (demo_symbol b) (ticks_in w)
              (watch_in w (demo_symbol b)) st) as [g left].
  simpl in G, Gc.
  destruct (ending_of g); simpl;
    try (intros _; rewrite !orders_app, !closes_app, L, F, G, Lc, Fc, Gc;
         repeat split; reflexivity).
  match goal with
  | |- context [existsb is_waiting ?runs] => destruct (existsb is_waiting runs)
  end; simpl; discriminate.
Qed.

(** X14. A run of [runner] that ends with an exception has submitted no
    order: [runner] raises only from [setup], [login], [fetch_user_details]
    or [wait_market_open], all of which come before the first task is
    started, and what the tasks raise is collected by [gather]. *)
Theorem raised_run_submitted_nothing (w : world) (b : bot) (e : exn) :
  ended (runner float_of_str w b) = Raised e ->
  orders (events (runner float_of_str w b)) = [].
Proof. intros H. exact (proj1 (runner_raised w b e H)). Qed.

(** X15. The quote poll the gate makes while it waits is not guarded: when
    the gate does not return on its first round (the hour is below 11 or the
    status is ["Close"]) and the quote request for the demo symbol fails,
    [wait_market_open] raises and the whole run ends with that exception,
    before any task is started, with no order submitted and the session left
    open. *)
Theorem failed_gate_poll_ends_run (w : world) (b : bot)
    (ck : option string) (st st' : stock_state) (hour : Z) (r : status_reply)
    (ticks : list (Z * status_reply)) (wr : watch_reply)
    (rest : list watch_reply) (evs : list event) (e : exn) :
  get_cookies (cookies_in w) = Ok ck ->
  snd (login (login_in w)) = None ->
  snd (fetch_user_details (details_in w)) = None ->
  dict_get (demo_symbol b) (fill_pools (rng w) 0 (stock_states b)) = Some st ->
  ticks_in w = (hour, r) :: ticks ->
  gate_open hour (fst (market_status r)) = false ->
  watch_in w (demo_symbol b) = wr :: rest ->
  watch_stock float_of_str (demo_symbol b) wr st = (st', evs, Some e) ->
  ended (runner float_of_str w b) = Raised e /\
  orders (events (runner float_of_str w b)) = [] /\
  closes (events (runner float_of_str w b)) = 0%nat /\
  session (bot_of (runner float_of_str w b)) = true.
Proof.
  intros C L F D T G W S.
  assert (E : ended (runner float_of_str w b) = Raised e /\
              session (bot_of (runner float_of_str w b)) = true).
  { unfold runner. rewrite C.
    destruct (login (login_in w)) as [evs1 o1]. simpl in L. subst o1.
    destruct (fetch_user_details (details_in w)) as [evs2 o2]. simpl in F.
    subst o2. simpl. rewrite D, T, W. simpl.
    destruct (market_status r) as [status sevs]. simpl in G. rewrite G, S.
    simpl. split; reflexivity. }
  destruct E as [E1 E2].
  destruct (runner_raised w b e E1) as (Ho & Hc & _).
  repeat split; assumption.
Qed.

(** X16. A cookie request answered with a status other than 200 does not
    stop the run: [get_cookies] returns [None] and [runner] goes on to the
    login request.  A reply with status 200 that sets no [JSESSIONID] cookie
    does: [get_cookies] raises [AttributeError] and [runner] ends right after
    the cookie request, the session open and no token pool filled. *)
Theorem cookie_request_failures (w : world) (b : bot) :
  (c_status (cookies_in w) <> 200 ->
   get_cookies (cookies_in w) = Ok None /\
   exists rest, events (runner float_of_str w b) = EvCookies :: EvLogin :: rest) /\
  (c_status (cookies_in w) = 200 ->
   c_jsessionid (cookies_in w) = None ->
   runner float_of_str w b =
   mk_outcome (Raised AttributeError)
     (mk_bot true (demo_symbol b) (stock_states b)) [EvCookies]).
Proof.
  split.
  - intros Hs.
    assert (C : get_cookies (cookies_in w) = Ok None).
    { unfold get_cookies.
      destruct (c_status (cookies_in w) =? 200) eqn:S; [|reflexivity].
      apply Z.eqb_eq in S. contradiction. }
    split; [exact C|]. unfold runner. rewrite C.
    destruct (login_events (login_in w)) as [_ [r1 Hr]].
    destruct (login (login_in w)) as [evs1 [e1|]]; simpl in Hr; subst evs1;
      simpl; [eexists; reflexivity|].
    destruct (fetch_user_details (details_in w)) as [evs2 [e2|]]; simpl;
      [eexists; reflexivity|].
    destruct (dict_get (demo_symbol b) (fill_pools (rng w) 0 (stock_states b)))
      as [st|]; simpl; [|eexists; reflexivity].
    destruct (wait_market_open float_of_str (demo_symbol b) (ticks_in w)
                (watch_in w (demo_symbol b)) st) as [g left].
    destruct (ending_of g); simpl; try (eexists; reflexivity).
    match goal with
    | |- context [existsb is_waiting ?runs] => destruct (existsb is_waiting runs)
    end; simpl; eexists; reflexivity.
  - intros Hs Hc. unfold runner, get_cookies. rewrite Hs, Hc. reflexivity.
Qed.

End RunnerRunFacts.

(** ** The configuration *)

Lemma dict_get_set_same {A : Type} (k : string) (v : A) (d : list (string * A)) :
  dict_get k (dict_set k v d) = Some v.
Proof.
  induction d as [|[k' v'] d IH]; simpl.
  - rewrite String.eqb_refl. reflexivity.
  - destruct (String.eqb k k') eqn:E; simpl; rewrite ?String.eqb_refl, ?E; auto.
Qed.

Lemma dict_get_set_other {A : Type} (k k' : string) (v : A)
    (d : list (string * A)) :
  k' <> k -> dict_get k' (dict_set k v d) = dict_get k' d.
Proof.
  intros N. induction d as [|[k1 v1] d IH]; simpl.
  - destruct (String.eqb k' k) eqn:E; [|reflexivity].
    apply String.eqb_eq in E. contradiction.
  - destruct (String.eqb k k1) eqn:E; simpl.
    + apply String.eqb_eq in E. subst k1.
      destruct (String.eqb k' k) eqn:E'; [|reflexivity].
      apply String.eqb_eq in E'. contradiction.
    + rewrite IH. reflexivity.
Qed.

Lemma dict_set_keys {A : Type} (k k' : string) (v : A) (d : list (string * A)) :
  In k' (map fst (dict_set k v d)) <-> k' = k \/ In k' (map fst d).
Proof.
  induction d as [|[k1 v1] d IH]; simpl.
  - intuition congruence.
  - destruct (String.eqb k k1) eqn:E; simpl.
    + apply String.eqb_eq in E. subst k1. intuition congruence.
    + rewrite IH. intuition congruence.
Qed.

Lemma dict_set_NoDup {A : Type} (k : string) (v : A) (d : list (string * A)) :
  NoDup (map fst d) -> NoDup (map fst (dict_set k v d)).
Proof.
  induction d as [|[k1 v1] d IH]; simpl; intros H.
  - constructor; [intros [] | constructor].
  - inversion H as [|x l Hin Hnd]; subst.
    destruct (String.eqb k k1) eqn:E; simpl.
    + apply String.eqb_eq in E. subst k1. constructor; assumption.
    + constructor; [|apply IH; exact Hnd].
      intros Hk. apply dict_set_keys in Hk. destruct Hk as [Hk | Hk].
      * subst k1. rewrite String.eqb_refl in E. discriminate.
      * contradiction.
Qed.

(** The dictionary comprehension of [__init__], entry after entry. *)
Lemma build_states (config : list (string * Z)) (d : list (string * stock_state)) :
  let d' := fold_left (fun d cfg => dict_set (fst cfg) (init_state (snd cfg)) d)
              config d in
  (NoDup (map fst d) -> NoDup (map fst d')) /\
  (forall k, In k (map fst d') <-> In k (map fst d) \/ In k (map fst config)) /\
  (forall k st, dict_get k d' = Some st ->
                dict_get k d = Some st \/
                exists q, In (k, q) config /\ st = init_state q) /\
  (forall k, ~ In k (map fst config) -> dict_get k d' = dict_get k d).
Proof.
  revert d. induction config as [|[s q] config IH]; intros d; simpl.
  - repeat split; auto; intuition.
  - destruct (IH (dict_set s (init_state q) d)) as (N & K & G & O).
    simpl in *. split; [|split; [|split]].
    + intros H. apply N, dict_set_NoDup, H.
    + intros k. rewrite K, dict_set_keys. intuition congruence.
    + intros k st H. destruct (G k st H) as [H1 | (q' & Hin & ->)].
      * destruct (String.eqb k s) eqn:E.
        -- apply String.eqb_eq in E. subst k.
           rewrite dict_get_set_same in H1. inversion H1; subst.
           right. exists q. split; [left; reflexivity | reflexivity].
        -- apply String.eqb_neq in E.
           rewrite dict_get_set_other in H1 by exact E. left. exact H1.
      * right. exists q'. split; [right; exact Hin | reflexivity].
    + intros k Hk. rewrite O by (intros H; apply Hk; right; exact H).
      apply dict_get_set_other. intros ->. apply Hk. left. reflexivity.
Qed.

Lemma dict_get_In {A : Type} (k : string) (d : list (string * A)) :
  In k (map fst d) -> exists v, dict_get k d = Some v.
Proof.
  induction d as [|[k1 v1] d IH]; simpl; [intros []|].
  intros [-> | H].
  - rewrite String.eqb_refl. eexists; reflexivity.
  - destruct (String.eqb k k1); [eexists; reflexivity | exact (IH H)].
Qed.

(** On ASCII text upper-casing twice is upper-casing once. *)
Lemma upper_idempotent (s : string) :
  AsciiText.upper (AsciiText.upper s) = AsciiText.upper s.
Proof.
  induction s as [|c s IH]; simpl; [reflexivity|]. rewrite IH. f_equal.
  destruct c as [[] [] [] [] [] [] [] []]; reflexivity.
Qed.

Section ConstructionFacts.

Variable upper : string -> string.

(** X17. [__init__] on a configuration, whatever [str.upper] makes of its
    symbols: an empty one raises [IndexError] (there is no first symbol to
    poll at the gate); otherwise the keys of [stock_states] are the
    upper-cased symbols, each once (and unchanged by a further upper-casing,
    where upper-casing twice is upper-casing once); the demo symbol is the
    upper-cased first symbol and has an entry; every entry is the fresh one
    of a configured quantity of a symbol with that upper-casing; and when
    several configured symbols have the same upper-casing, their entry has
    the quantity configured last. *)
Theorem constructed_bot_entries (stocks_config : list (string * Z)) :
  (stocks_config = [] -> new_bot upper stocks_config = Raise IndexError) /\
  (forall b,
      new_bot upper stocks_config = Ok b ->
      session b = false /\
      (exists s q rest,
          stocks_config = (s, q) :: rest /\ demo_symbol b = upper s) /\
      NoDup (map fst (stock_states b)) /\
      (forall k, In k (map fst (stock_states b)) <->
                 exists s q, In (s, q) stocks_config /\ upper s = k) /\
      ((forall s, upper (upper s) = upper s) ->
       forall k, In k (map fst (stock_states b)) -> upper k = k) /\
      (exists st, dict_get (demo_symbol b) (stock_states b) = Some st) /\
      (forall k st,
          dict_get k (stock_states b) = Some st ->
          exists s q, In (s, q) stocks_config /\ upper s = k /\ st = init_state q) /\
      (forall before s q after,
          stocks_config = before ++ (s, q) :: after ->
          (forall s' q', In (s', q') after -> upper s' <> upper s) ->
          dict_get (upper s) (stock_states b) = Some (init_state q))).
Proof.
  split; [intros ->; reflexivity|].
  intros b H. unfold new_bot in H.
  destruct stocks_config as [|[s q] rest]; [discriminate|].
  remember ((s, q) :: rest) as cfg eqn:Hcfg.
  set (config := map (fun c : string * Z => (upper (fst c), snd c)) cfg) in *.
  assert (Hc : config = (upper s, q) :: map (fun c : string * Z => (upper (fst c), snd c)) rest)
    by (unfold config; rewrite Hcfg; reflexivity).
  rewrite Hc in H. rewrite <- Hc in H. inversion H; subst b; clear H. simpl.
  destruct (build_states config []) as (N & K & G & O). simpl in *.
  assert (Keys : forall k,
             In k (map fst
                     (fold_left (fun d c => dict_set (fst c) (init_state (snd c)) d)
                        config [])) <->
             exists s' q', In (s', q') cfg /\ upper s' = k).
  { intros k. rewrite K. unfold config. rewrite map_map. simpl. split.
    - intros [[] | Hk]. apply in_map_iff in Hk. destruct Hk as ([s' q'] & E & Hin).
      exists s', q'. split; [exact Hin | exact E].
    - intros (s' & q' & Hin & E). right. apply in_map_iff.
      exists (s', q'). split; [exact E | exact Hin]. }
  split; [reflexivity|].
  split; [exists s, q, rest; split; [exact Hcfg | reflexivity]|].
  split; [apply N; constructor|].
  split; [exact Keys|].
  split.
  { intros Idem k Hk. apply Keys in Hk. destruct Hk as (s' & q' & _ & <-).
    apply Idem. }
  split.
  { apply dict_get_In. apply K. right. rewrite Hc. left. reflexivity. }
  split.
  - intros k st Hk. destruct (G k st Hk) as [Hk' | (q' & Hin & ->)];
      [discriminate|].
    unfold config in Hin. apply in_map_iff in Hin.
    destruct Hin as ([s' q''] & E & Hin). simpl in E. inversion E; subst.
    exists s', q'. repeat split; auto.
  - intros before s0 q0 after E Hafter.
    unfold config. rewrite E, map_app, fold_left_app. simpl.
    destruct (build_states
                (map (fun c : string * Z => (upper (fst c), snd c)) after)
                (dict_set (upper s0) (init_state q0)
                   (fold_left
                      (fun d c => dict_set (fst c) (init_state (snd c)) d)
                      (map (fun c : string * Z => (upper (fst c), snd c)) before)
                      []))) as (_ & _ & _ & O').
    simpl in O'. rewrite O'; [apply dict_get_set_same|].
    intros Hin. rewrite map_map in Hin. simpl in Hin.
    apply in_map_iff in Hin. destruct Hin as ([s' q'] & E' & Hin'). simpl in E'.
    exact (Hafter s' q' Hin' E').
Qed.

(** ** The entries after [setup] *)

Lemma fill_pool_frame (rng : nat -> nat) (n pos : nat) (st : stock_state) :
  same_except_pool st (fst (fill_pool rng n pos st)).
Proof.
  revert pos st. induction n as [|n IH]; intros pos st; simpl.
  - destruct st; reflexivity.
  - unfold same_except_pool in *.
    specialize (IH (pos + 10)%nat
                  (set_duplicate_order_ids
                     (duplicate_order_ids st ++ [generate_duplicate_order_id rng pos])
                     st)).
    destruct (fst (fill_pool rng n (pos + 10)
                     (set_duplicate_order_ids
                        (duplicate_order_ids st ++ [generate_duplicate_order_id rng pos])
                        st))) as [a b c d e f g h i j k l m o].
    destruct st. simpl in *. inversion IH; subst. reflexivity.
Qed.

Lemma dict_get_fill_pools (rng : nat -> nat) (pos : nat)
    (states : list (string * stock_state)) (k : string) :
  match dict_get k (fill_pools rng pos states) with
  | Some st' =>
      exists st pos', dict_get k states = Some st /\
                      st' = fst (fill_pool rng 20 pos' st)
  | None => dict_get k states = None
  end.
Proof.
  revert pos. induction states as [|[k1 st1] states IH]; intros pos;
    cbn [fill_pools]; [reflexivity|].
  specialize (IH (snd (fill_pool rng 20 pos st1))).
  destruct (fill_pool rng 20 pos st1) as [st1' pos1] eqn:F.
  cbn [dict_get snd] in *. destruct (String.eqb k k1).
  - exists st1, pos. rewrite F. split; reflexivity.
  - exact IH.
Qed.

(** X18. What every loop starts from: for a bot built by [__init__], after
    [setup] the entry under every key is still the fresh entry of a
    configured quantity (last trigger -2, cursor 0, no opening price) but for
    its pool, which holds exactly 20 well-formed tokens; and [setup] neither
    adds nor drops a key. *)
Theorem entries_after_setup (stocks_config : list (string * Z)) (b : bot)
    (rng : nat -> nat) (k : string) :
  new_bot upper stocks_config = Ok b ->
  match dict_get k (fill_pools rng 0 (stock_states b)) with
  | Some st =>
      (exists s q, In (s, q) stocks_config /\ upper s = k /\
                   same_except_pool (init_state q) st) /\
      List.length (duplicate_order_ids st) = 20%nat /\
      Forall well_formed_token (duplicate_order_ids st) /\
      order_id_index st = 0%nat /\
      initial_per st = (-2)%float /\
      truthy (opening_price st) = false
  | None => dict_get k (stock_states b) = None
  end.
Proof.
  intros H.
  pose proof (dict_get_fill_pools rng 0 (stock_states b) k) as D.
  destruct (dict_get k (fill_pools rng 0 (stock_states b))) as [st'|];
    [|exact D].
  destruct D as (st & pos' & Hk & ->).
  unfold new_bot in H.
  destruct (map (fun cfg : string * Z => (upper (fst cfg), snd cfg)) stocks_config)
    as [|[demo q0] rest] eqn:Hc; [discriminate|].
  inversion H; subst b; clear H. simpl in Hk.
  destruct (build_states ((demo, q0) :: rest) []) as (_ & _ & G & _).
  cbv zeta in G.
  destruct (G k st Hk) as [Hk' | (q & Hin & ->)]; [simpl in Hk'; discriminate|].
  rewrite <- Hc in Hin. apply in_map_iff in Hin.
  destruct Hin as ([s q1] & E & Hin). simpl in E. inversion E; subst.
  pose proof (fill_pool_frame rng 20 pos' (init_state q)) as Fr.
  destruct (fill_pool_appends rng 20 pos' (init_state q)) as (tokens & Hp & Hl & Hf).
  remember (fst (fill_pool rng 20 pos' (init_state q))) as st' eqn:Hst.
  clear Hst. change (duplicate_order_ids (init_state q)) with (@nil string) in Hp.
  simpl in Hp.
  split; [exists s, q; repeat split; auto|].
  rewrite Hp. split; [exact Hl|]. split; [exact Hf|].
  unfold same_except_pool in Fr.
  destruct st' as [a b c d e f g h i j k0 l m o].
  unfold set_duplicate_order_ids, init_state in Fr. simpl in Fr.
  inversion Fr; subst. repeat split; reflexivity.
Qed.

End ConstructionFacts.

(** ** What reaches the terminal *)

Lemma off_terminal_logs_app (tr tr' : list event) :
  Forall off_terminal tr -> Forall off_terminal tr' -> Forall off_terminal (tr ++ tr').
Proof. intros H H'. apply Forall_app. split; assumption. Qed.

Lemma trunc1_raises (x : float) (e : exn) :
  PyFloat.trunc1 x = Raise e -> off_terminal_exn e.
Proof.
  unfold PyFloat.trunc1, PyFloat.int_of_float, PyFloat.int_truediv, bind.
  destruct (Prim2SF (x * 10)%float) as [s | s | | s m ex]; simpl;
    try (intros H; inversion H; exact I);
    match goal with
    | |- context [SFdiv ?p ?q ?a ?b] => destruct (SFdiv p q a b)
    end; intros H; inversion H; exact I.
Qed.

Section TerminalFacts.

Variable float_of_str : string -> option float.

Lemma float_of_text_raises (v : pyval) (e : exn) :
  float_of_text float_of_str v = Raise e -> off_terminal_exn e.
Proof.
  destruct v as [| x | s]; simpl; try (intros H; inversion H; exact I).
  destruct (float_of_str (remove_commas s)); simpl; intros H; inversion H.
  exact I.
Qed.

Lemma watch_stock_off_terminal (symbol : string) (w : watch_reply)
    (st st' : stock_state) (evs : list event) (e : option exn) :
  watch_stock float_of_str symbol w st = (st', evs, e) ->
  Forall off_terminal evs /\
  match e with Some x => off_terminal_exn x | None => True end.
Proof.
  unfold watch_stock. destruct (w_status w =? 200).
  - destruct (read_watch float_of_str (w_data w) st) as [s [|]];
      intros H; inversion H; subst; split;
      repeat constructor; try (vm_compute; reflexivity).
  - intros H; inversion H; subst.
    split; repeat constructor; try (vm_compute; reflexivity).
Qed.

Lemma place_buy_order_off_terminal (symbol : string) (st : stock_state)
    (quantity : Z) (o : order_reply) (evs : list event) (e : option exn) :
  place_buy_order symbol st quantity o = (evs, e) ->
  Forall off_terminal evs /\
  match e with Some x => off_terminal_exn x | None => True end.
Proof.
  unfold place_buy_order.
  destruct (o_status o =? 200);
    [destruct (o_code o) as [c|]; [destruct (eq_str c "0")|]|];
    intros H; inversion H; subst; split; repeat constructor;
    try (vm_compute; reflexivity).
Qed.

Lemma handled_off_terminal (e : exn) (st : stock_state) (evs : list event) :
  Forall off_terminal evs -> off_terminal_exn e ->
  Forall off_terminal (trace_of (handled e st evs)).
Proof.
  intros H He. simpl. apply Forall_app. split; [exact H|].
  constructor; [exact He | constructor].
Qed.

Lemma iteration_off_terminal (symbol : string) (os : list order_reply)
    (st : stock_state) :
  Forall off_terminal (pass_events (iteration float_of_str symbol os st)).
Proof.
  unfold iteration.
  destruct (float_of_text float_of_str (ltp st)) as [p|e] eqn:P;
    [|apply handled_off_terminal;
      [constructor | exact (float_of_text_raises _ _ P)]].
  cbn [ltp_p set_ltp_p].
  destruct (PyFloat.trunc1 (p * 1.02)%float) as [h|e] eqn:T;
    [|apply handled_off_terminal; [constructor | exact (trunc1_raises _ _ T)]].
  destruct (PyFloat.gt _ _); [|constructor].
  destruct (nth_error _ _) as [token|];
    [|apply handled_off_terminal; [constructor | exact I]].
  destruct (PyFloat.le _ _);
    (destruct os as [|o os']; [repeat constructor|]);
    destruct (place_buy_order _ _ _ _) as [evs [e|]] eqn:B;
    destruct (place_buy_order_off_terminal _ _ _ _ _ _ B) as [Hevs He];
    try (apply handled_off_terminal; assumption); exact Hevs.
Qed.

Lemma active_off_terminal (symbol : string) (ws : list watch_reply)
    (os : list order_reply) (st : stock_state) :
  Forall off_terminal (trace_of (active float_of_str symbol ws os st)).
Proof.
  revert os st. induction ws as [|w ws IH]; intros os st; simpl;
    pose proof (iteration_off_terminal symbol os st) as I0;
    destruct (iteration float_of_str symbol os st) as [s1 os1 evs1|r];
    simpl in I0; try exact I0.
  - simpl. apply Forall_app. split; [exact I0 | repeat constructor].
  - destruct (watch_stock float_of_str symbol w s1) as [[s2 evs2] [e|]] eqn:W;
      destruct (watch_stock_off_terminal _ _ _ _ _ _ W) as [Hw He].
    + apply handled_off_terminal; [|exact He].
      apply Forall_app. split; assumption.
    + simpl. apply Forall_app. split; [|apply IH].
      apply Forall_app. split; assumption.
Qed.

Lemma detect_off_terminal (symbol : string) (ws : list watch_reply)
    (os : list order_reply) (st : stock_state) :
  Forall off_terminal (trace_of (detect float_of_str symbol ws os st)).
Proof.
  assert (A : forall ws st,
             match await_open float_of_str symbol ws st with
             | Opened _ _ evs => Forall off_terminal evs
             | NotOpened r => Forall off_terminal (trace_of r)
             end).
  { clear ws st. induction ws as [|w ws IH]; intros st; simpl;
      destruct (truthy (opening_price st)); try (repeat constructor).
    destruct (watch_stock float_of_str symbol w st) as [[s1 evs1] [e|]] eqn:W;
      destruct (watch_stock_off_terminal _ _ _ _ _ _ W) as [Hw _];
      [exact Hw|].
    specialize (IH s1).
    destruct (await_open float_of_str symbol ws s1) as [ws2 s2 evs2|r]; simpl;
      apply Forall_app; split; assumption. }
  unfold detect. specialize (A ws st).
  destruct (await_open float_of_str symbol ws st) as [ws' st' evs|r];
    [|exact A].
  destruct (circuit_per_of _ _); simpl; [|exact A].
  apply Forall_app. split; [exact A | apply active_off_terminal].
Qed.

Lemma gate_off_terminal (demo : string) (ticks : list (Z * status_reply))
    (ws : list watch_reply) (st : stock_state) :
  Forall off_terminal
    (trace_of (fst (wait_market_open float_of_str demo ticks ws st))).
Proof.
  revert ws st. induction ticks as [|[hour r] ticks IH]; intros ws st; simpl;
    [repeat constructor|].
  assert (M : Forall off_terminal (snd (market_status r))).
  { unfold market_status. destruct (ms_status r =? 200);
      [destruct (ms_payload r)|]; repeat constructor. }
  destruct (market_status r) as [status evs]. simpl in M.
  destruct (gate_open hour status); [exact M|].
  destruct ws as [|w ws']; simpl.
  - apply Forall_app. split; [exact M | repeat constructor].
  - destruct (watch_stock float_of_str demo w st) as [[st' evs'] [e|]] eqn:W;
      destruct (watch_stock_off_terminal _ _ _ _ _ _ W) as [Hw _]; simpl.
    + apply Forall_app. split; assumption.
    + specialize (IH ws' st').
      destruct (wait_market_open float_of_str demo ticks ws' st') as [g rest].
      simpl in *. apply Forall_app. split; [|exact IH].
      apply Forall_app. split; assumption.
Qed.

(** X19. Nothing the program words itself reaches the terminal.  The
    terminal handler passes a record only when its message contains
    ["Login successfully!"] or ["Details fetched successfully!"]; over any run
    of [runner], the messages logged by [login] and [fetch_user_details] and
    every exception text of the program that [detect] logs contain neither,
    and the filter refuses them. *)
Theorem program_messages_stay_off_terminal (w : world) (b : bot) :
  Forall off_terminal (events (runner float_of_str w b)) /\
  (forall r message,
      In (EvLog r) (events (runner float_of_str w b)) ->
      record_text r = Some message ->
      terminal_filter message = false).
Proof.
  assert (F : Forall off_terminal (events (runner float_of_str w b))).
  { unfold runner.
    destruct (get_cookies (cookies_in w)) as [ck|e0]; simpl;
      [|repeat constructor].
    assert (L : Forall off_terminal (fst (login (login_in w)))).
    { unfold login. destruct (l_status (login_in w) =? 200);
        [|repeat constructor].
      destruct (l_data (login_in w)) as [d|]; [|repeat constructor].
      destruct (l_code d) as [c|]; [|repeat constructor].
      destruct (eq_str c "0"); [|repeat constructor].
      destruct (l_watchID d), (l_broker_code d); repeat constructor;
        try (vm_compute; reflexivity). }
    destruct (login (login_in w)) as [evs1 [e1|]]; simpl in *;
      [constructor; [exact I | exact L]|].
    assert (D : Forall off_terminal (fst (fetch_user_details (details_in w)))).
    { unfold fetch_user_details. destruct (d_status (details_in w) =? 200);
        [destruct (d_user (details_in w))|]; repeat constructor;
        try (vm_compute; reflexivity). }
    destruct (fetch_user_details (details_in w)) as [evs2 [e2|]]; simpl in *;
      [constructor; [exact I | apply Forall_app; split; assumption]|].
    destruct (dict_get (demo_symbol b) (fill_pools (rng w) 0 (stock_states b)))
      as [st|]; simpl;
      [|constructor; [exact I | apply Forall_app; split; assumption]].
    pose proof (gate_off_terminal (demo_symbol b) (ticks_in w)
                  (watch_in w (demo_symbol b)) st) as G.
    destruct (wait_market_open float_of_str (demo_symbol b) (ticks_in w)
                (watch_in w (demo_symbol b)) st) as [g left].
    simpl in G.
    assert (Pre : Forall off_terminal ((evs1 ++ evs2) ++ trace_of g))
      by (apply Forall_app; split; [apply Forall_app; split|]; assumption).
    destruct (ending_of g); simpl;
      try (constructor; [exact I | exact Pre]).
    assert (T : forall states,
               Forall off_terminal
                 (List.concat
                    (map trace_of
                       (map (task float_of_str w (demo_symbol b) left) states)))).
    { induction states as [|entry states IH]; simpl; [constructor|].
      apply Forall_app. split; [apply detect_off_terminal | exact IH]. }
    match goal with
    | |- context [existsb is_waiting ?runs] => destruct (existsb is_waiting runs)
    end; simpl; constructor; try exact I.
    - apply Forall_app. split; [apply Forall_app; split; assumption|].
      apply Forall_app. split; [exact G | apply T].
    - rewrite <- app_assoc. apply Forall_app.
      split; [apply Forall_app; split; assumption|].
      rewrite <- app_assoc. apply Forall_app. split; [exact G|].
      apply Forall_app. split; [apply T | repeat constructor]. }
  split; [exact F|].
  intros r message Hin Ht.
  rewrite Forall_forall in F. specialize (F _ Hin). simpl in F.
  rewrite Ht in F. exact F.
Qed.

End TerminalFacts.

(** ** The further properties on the session of the examples *)

(** A quote without [highdpr]: trade price, close, opening price and percent
    change are written, the ceiling price is not. *)
Lemma unreadable_ceiling_witness :
  watch_stock Decimal.float_of_str "JHAPA"
    (mk_watch_reply 200
       (Some {| tradeprice := Some (PyStr "1,002");
                vwap := Some (PyStr "100.0");
                openingprice := Some (PyStr "101.0");
                perchange := Some (PyStr "1.0");
                highdpr := None |})) Example.entry =
  (set_percent 1
     (set_opening_price (PyStr "101.0")
        (set_previous_day_closing 100 (set_ltp (PyStr "1,002") Example.entry))),
   [EvWatch "JHAPA"; EvLog LogWatchError],
   Some (Exception "Seems like market is closed!")).
Proof.
  apply (unreadable_ceiling_keeps_earlier_keys Decimal.float_of_str "JHAPA"
           {| tradeprice := Some (PyStr "1,002");
              vwap := Some (PyStr "100.0");
              openingprice := Some (PyStr "101.0");
              perchange := Some (PyStr "1.0");
              highdpr := None |}
           Example.entry (PyStr "1,002") (PyStr "100.0") (PyStr "101.0")
           (PyStr "1.0") 100%float 1%float);
    vm_compute; reflexivity.
Defined.

(** A quote with an empty percent change reads as 0.0, above -2. *)
Lemma empty_percent_change_witness :
  percent (fst (fst (watch_stock Decimal.float_of_str "JHAPA"
                       Example.quote_blank_change Example.entry))) = 0%float /\
  PyFloat.gt
    (percent (fst (fst (watch_stock Decimal.float_of_str "JHAPA"
                          Example.quote_blank_change Example.entry)))) (-2) = true.
Proof.
  apply (empty_percent_change_reads_zero Decimal.float_of_str "JHAPA"
           Example.quote_blank_change Example.entry
           (fst (fst (watch_stock Decimal.float_of_str "JHAPA"
                        Example.quote_blank_change Example.entry)))
           [EvWatch "JHAPA"]
           {| tradeprice := Some (PyStr "1,002");
              vwap := Some (PyStr "100.0");
              openingprice := Some (PyStr "101.0");
              perchange := Some (PyStr "");
              highdpr := Some (PyStr "110.0") |}
           (PyStr ""));
    vm_compute; reflexivity.
Defined.

(** The ceiling price of the quote of the examples. *)
Lemma ceiling_price_witness :
  exists d v h n,
    w_data (Example.quote "1,002" "1.0") = Some d /\ highdpr d = Some v /\
    float_of_repr Decimal.float_of_str v = Some h /\
    PyFloat.int_of_float (h * 10)%float = Ok n /\
    PyFloat.truncation_of (h * 10)%float n /\
    PyFloat.int_truediv n 10 =
      Ok (circuit_price
            (fst (fst (watch_stock Decimal.float_of_str "JHAPA"
                         (Example.quote "1,002" "1.0") Example.entry)))).
Proof.
  apply (ceiling_price_cut_to_one_decimal Decimal.float_of_str "JHAPA"
           (Example.quote "1,002" "1.0") Example.entry
           (fst (fst (watch_stock Decimal.float_of_str "JHAPA"
                        (Example.quote "1,002" "1.0") Example.entry)))
           [EvWatch "JHAPA"]).
  vm_compute. reflexivity.
Defined.

(** The first order of the session answered with the code ['1']: the loop
    goes on, trigger and cursor moved. *)
Lemma refused_order_witness :
  iteration Decimal.float_of_str "JHAPA" [Example.refused] Example.head_1 =
  ToPoll
    (set_order_id_index (S (order_id_index Example.head_1))
       (set_initial_per (percent Example.head_1)
          (drawn "123456789a" (priced 1002 1022 Example.head_1))))
    []
    [EvOrder (order_of "JHAPA"
                (drawn "123456789a" (priced 1002 1022 Example.head_1))
                default_qnty);
     EvLog LogOrderTime].
Proof.
  apply (refused_order_counts_as_placed Decimal.float_of_str "JHAPA" []
           Example.refused Example.head_1 1002%float 1022%float "123456789a"
           (PyStr "1"));
    vm_compute; reflexivity.
Defined.

(** The first order of the session answered with status 500: the loop is
    over. *)
Lemma failed_order_witness :
  ending_of (active Decimal.float_of_str "JHAPA" [Example.quote "1,003" "7.95"]
               [Example.failed] Example.head_1) = Returned /\
  List.length
    (orders (trace_of (active Decimal.float_of_str "JHAPA"
                         [Example.quote "1,003" "7.95"] [Example.failed]
                         Example.head_1))) = 1%nat.
Proof.
  destruct (failed_order_ends_loop Decimal.float_of_str "JHAPA"
              [Example.quote "1,003" "7.95"] [] Example.failed Example.head_1
              1002%float 1022%float "123456789a") as (H1 & H2 & _).
  - vm_compute. reflexivity.
  - vm_compute. reflexivity.
  - vm_compute. reflexivity.
  - vm_compute. reflexivity.
  - left. vm_compute. discriminate.
  - split; assumption.
Defined.

(** A first quote request answered with status 500: [detect] raises, nothing
    submitted. *)
Lemma detect_raises_witness :
  orders (trace_of (detect Decimal.float_of_str "JHAPA" [mk_watch_reply 500 None]
                      [Example.accepted] Example.entry)) = [].
Proof.
  apply (proj2 (detect_raises_only_before_trading Decimal.float_of_str "JHAPA"
                  [mk_watch_reply 500 None] [Example.accepted] Example.entry)
           (Exception "Failed to fetch watch details!")).
  vm_compute. reflexivity.
Defined.

(** A session that opens on a close of 0. *)
Lemma zero_close_witness :
  detect Decimal.float_of_str "JHAPA" [Example.quote_zero_close]
    [Example.accepted] Example.entry =
  mk_run (Raised ZeroDivisionError)
    (fst (fst (watch_stock Decimal.float_of_str "JHAPA"
                 Example.quote_zero_close Example.entry)))
    [EvWatch "JHAPA"] /\
  orders [EvWatch "JHAPA"] = [].
Proof.
  apply (zero_close_raises_zero_division Decimal.float_of_str "JHAPA"
           [Example.quote_zero_close] [] [Example.accepted] Example.entry);
    vm_compute; reflexivity.
Defined.


(** The run whose login is refused submitted nothing. *)
Lemma raised_run_witness :
  orders (events (runner Decimal.float_of_str Example.login_refused
                    Example.the_bot)) = [].
Proof.
  apply (raised_run_submitted_nothing Decimal.float_of_str Example.login_refused
           Example.the_bot (Exception "Login failed! due to bad request")).
  vm_compute. reflexivity.
Defined.

(** Started at 10 with the quote request failing, the run ends at the gate. *)
Lemma failed_gate_poll_witness :
  ended (runner Decimal.float_of_str Example.early_world Example.the_bot) =
    Raised (Exception "Failed to fetch watch details!") /\
  orders (events (runner Decimal.float_of_str Example.early_world
                    Example.the_bot)) = [] /\
  closes (events (runner Decimal.float_of_str Example.early_world
                    Example.the_bot)) = 0%nat /\
  session (bot_of (runner Decimal.float_of_str Example.early_world
                     Example.the_bot)) = true.
Proof.
  apply (failed_gate_poll_ends_run Decimal.float_of_str Example.early_world
           Example.the_bot (Some "0A1B2C") Example.entry Example.entry 10
           (mk_status_reply 200 (Some (PyStr "Open"))) []
           (mk_watch_reply 500 None) [] [EvWatch "JHAPA"]
           (Exception "Failed to fetch watch details!"));
    vm_compute; reflexivity.
Defined.

(** The twenty orders of the climbing session draw the twenty positions of
    a pool whose tokens differ: they carry twenty different tokens. *)
Lemma run_orders_witness :
  NoDup (map duplicateOrderId
           (orders (trace_of (active Decimal.float_of_str "JHAPA" Example.ladder
                                (repeat Example.accepted 20) Example.head_0)))).
Proof.
  apply (proj1 (proj2 (proj2 (run_orders_draw_pool_in_order
                                Decimal.float_of_str "JHAPA" Example.ladder
                                (repeat Example.accepted 20) Example.head_0)))).
  assert (E : nodup string_dec
                (skipn (order_id_index Example.head_0)
                   (duplicate_order_ids Example.head_0)) =
              skipn (order_id_index Example.head_0)
                (duplicate_order_ids Example.head_0))
    by (vm_compute; reflexivity).
  rewrite <- E. apply NoDup_nodup.
Defined.

(** With the cookie request answered 403 the login request is still made. *)
Lemma cookie_refused_witness :
  get_cookies (cookies_in Example.cookie_refused) = Ok None /\
  exists rest,
    events (runner Decimal.float_of_str Example.cookie_refused Example.the_bot) =
    EvCookies :: EvLogin :: rest.
Proof.
  apply (proj1 (cookie_request_failures Decimal.float_of_str
                  Example.cookie_refused Example.the_bot)).
  vm_compute. discriminate.
Defined.

(** JHAPA configured twice, the second time as [Jhapa] with 5: its entry has
    the quantity 5.  The symbols are ASCII text. *)
Lemma constructed_bot_witness :
  forallb AsciiText.is_ascii ["jhapa"; "sagar"; "Jhapa"] = true /\
  dict_get (AsciiText.upper "Jhapa")
    (stock_states
       (mk_bot false "JHAPA" [("JHAPA", init_state 5); ("SAGAR", init_state 350)]))
  = Some (init_state 5).
Proof.
  split; [reflexivity|].
  apply (proj2 (constructed_bot_entries AsciiText.upper
                  [("jhapa", 300); ("sagar", 350); ("Jhapa", 5)])
           (mk_bot false "JHAPA"
              [("JHAPA", init_state 5); ("SAGAR", init_state 350)])
           eq_refl)
    with (before := [("jhapa", 300); ("sagar", 350)]) (after := []).
  - reflexivity.
  - intros s' q' [].
Defined.

(** The entry of JHAPA after [setup] in the session of the examples. *)
Lemma entries_after_setup_witness :
  match dict_get "JHAPA"
          (fill_pools (fun n => n) 0 (stock_states Example.the_bot)) with
  | Some st =>
      (exists s q, In (s, q) [("jhapa", 300); ("sagar", 350)] /\
                   AsciiText.upper s = "JHAPA" /\
                   same_except_pool (init_state q) st) /\
      List.length (duplicate_order_ids st) = 20%nat /\
      Forall well_formed_token (duplicate_order_ids st) /\
      order_id_index st = 0%nat /\
      initial_per st = (-2)%float /\
      truthy (opening_price st) = false
  | None => dict_get "JHAPA" (stock_states Example.the_bot) = None
  end.
Proof.
  apply (entries_after_setup AsciiText.upper [("jhapa", 300); ("sagar", 350)]
           Example.the_bot (fun n => n) "JHAPA").
  reflexivity.
Defined.

(** ** Authentication and account details *)

Section AccountFacts.

Variable float_of_str : string -> option float.

(** X20. [login] returns normally exactly when the reply has status 200, its
    body decodes, its ['code'] is the string ['0'] and it holds a ['watchID']
    and a ['broker_code']; otherwise it raises, and [runner] ends with that
    exception right after the login request: no details, market-status or
    quote request is made. *)
Theorem login_succeeds_on_code_0_only (w : world) (b : bot) :
  (snd (login (login_in w)) = None <->
   l_status (login_in w) = 200 /\
   exists d wid bc,
     l_data (login_in w) = Some d /\ l_code d = Some (PyStr "0") /\
     l_watchID d = Some wid /\ l_broker_code d = Some bc) /\
  (forall ck e,
      get_cookies (cookies_in w) = Ok ck ->
      snd (login (login_in w)) = Some e ->
      ended (runner float_of_str w b) = Raised e /\
      events (runner float_of_str w b) = [EvCookies; EvLogin]).
Proof.
  split.
  - unfold login. split.
    + destruct (l_status (login_in w) =? 200) eqn:S; [|discriminate].
      apply Z.eqb_eq in S.
      destruct (l_data (login_in w)) as [d|]; [|discriminate].
      destruct (l_code d) as [c|] eqn:C; [|discriminate].
      destruct (eq_str c "0") eqn:E; [|discriminate].
      destruct (l_watchID d) as [wid|] eqn:W; [|discriminate].
      destruct (l_broker_code d) as [bc|] eqn:B; [|discriminate].
      intros _. split; [exact S|]. exists d, wid, bc.
      destruct c as [| x | t]; simpl in E; try discriminate.
      apply String.eqb_eq in E. subst t. repeat split; auto.
    + intros (S & d & wid & bc & D & C & W & B).
      rewrite S, D, C, W, B. reflexivity.
  - intros ck e C L. unfold runner. rewrite C.
    assert (F : fst (login (login_in w)) = [EvLogin]).
    { revert L. unfold login.
      destruct (l_status (login_in w) =? 200); [|reflexivity].
      destruct (l_data (login_in w)) as [d|]; [|reflexivity].
      destruct (l_code d) as [c|]; [|reflexivity].
      destruct (eq_str c "0"); [|reflexivity].
      destruct (l_watchID d), (l_broker_code d); try reflexivity.
      discriminate. }
    destruct (login (login_in w)) as [evs1 o1]. simpl in *. subst.
    split; reflexivity.
Qed.

(** X21. [fetch_user_details] returns normally exactly when the reply has
    status 200 and its body holds the user's identifiers; otherwise it raises
    one of its two exceptions, and [runner] ends with it right after the
    details request, before the market gate: no market-status or quote request
    is made and no order submitted. *)
Theorem details_failure_ends_run (w : world) (b : bot) :
  (snd (fetch_user_details (details_in w)) = None <->
   d_status (details_in w) = 200 /\ d_user (details_in w) = true) /\
  (forall ck e,
      get_cookies (cookies_in w) = Ok ck ->
      snd (login (login_in w)) = None ->
      snd (fetch_user_details (details_in w)) = Some e ->
      (e = Exception "Details Response is not in expected format!" \/
       e = Exception "Failed to fetch details!") /\
      ended (runner float_of_str w b) = Raised e /\
      events (runner float_of_str w b) =
        EvCookies :: fst (login (login_in w)) ++ [EvDetails]).
Proof.
  split.
  - unfold fetch_user_details. split.
    + destruct (d_status (details_in w) =? 200) eqn:S; [|discriminate].
      apply Z.eqb_eq in S.
      destruct (d_user (details_in w)); [|discriminate].
      intros _. split; [exact S | reflexivity].
    + intros (S & U). rewrite S, U. reflexivity.
  - intros ck e C L F. unfold runner. rewrite C.
    destruct (login (login_in w)) as [evs1 o1]. simpl in L. subst o1.
    assert (D : fst (fetch_user_details (details_in w)) = [EvDetails] /\
                (e = Exception "Details Response is not in expected format!" \/
                 e = Exception "Failed to fetch details!")).
    { revert F. unfold fetch_user_details.
      destruct (d_status (details_in w) =? 200);
        [destruct (d_user (details_in w))|]; simpl; intros F;
        inversion F; subst; split; auto. }
    destruct D as [D He].
    destruct (fetch_user_details (details_in w)) as [evs2 o2].
    simpl in *. subst. repeat split; auto.
Qed.

End AccountFacts.

(** The run whose login is answered with status 500 ends after the login
    request. *)
Lemma login_failure_witness :
  ended (runner Decimal.float_of_str Example.login_refused Example.the_bot) =
    Raised (Exception "Login failed! due to bad request") /\
  events (runner Decimal.float_of_str Example.login_refused Example.the_bot) =
    [EvCookies; EvLogin].
Proof.
  apply (proj2 (login_succeeds_on_code_0_only Decimal.float_of_str
                  Example.login_refused Example.the_bot)
           (Some "0A1B2C") (Exception "Login failed! due to bad request"));
    vm_compute; reflexivity.
Defined.

(** The run whose details reply is unreadable ends after the details
    request. *)
Lemma details_failure_witness :
  ended (runner Decimal.float_of_str Example.details_unreadable Example.the_bot) =
    Raised (Exception "Details Response is not in expected format!") /\
  events (runner Decimal.float_of_str Example.details_unreadable Example.the_bot) =
    EvCookies :: fst (login (login_in Example.details_unreadable)) ++ [EvDetails].
Proof.
  destruct (proj2 (details_failure_ends_run Decimal.float_of_str
                     Example.details_unreadable Example.the_bot)
              (Some "0A1B2C")
              (Exception "Details Response is not in expected format!"))
    as (_ & H1 & H2).
  - vm_compute. reflexivity.
  - vm_compute. reflexivity.
  - vm_compute. reflexivity.
  - split; assumption.
Defined.
